(** * gitgptapi: the [create_db] provisioner and the [list_db] catalog lister

    A shallow embedding of the two HTTP handlers of the repository
    ([src/create_db/__init__.py] and [src/list_db/__init__.py]) and the
    properties of their specification, stated and proved over that embedding.

    Conventions.
    - A Python [str] is a list of Unicode code points ([pystr]).
    - Code that raises is a computation in a state-and-exception monad; a
      [try ... except] block is [try_except].
    - The cloud SDK and the MySQL driver are external: the handlers are
      written against an interface, every call through it is recorded. *)

From Stdlib Require Import ZArith List Bool Ascii String Lia.
From Stdlib Require Import PrimFloat DecimalString.
From stdpp Require Import gmap strings list fin_maps.

Open Scope Z_scope.

(** ** Python strings *)

Definition codepoint : Type := N.
Definition pystr : Type := list codepoint.

(** A literal of the source, code point by code point (every literal of the
    two modules is ASCII). *)
Definition py (s : string) : pystr :=
  N_of_ascii <$> list_ascii_of_string s.

Module Str.

Definition is_ascii (c : codepoint) : bool := (c <? 128)%N.

Definition is_ascii_upper (c : codepoint) : bool := (65 <=? c)%N && (c <=? 90)%N.

(** [str.lower] on ASCII text: [A-Z] to [a-z], the rest unchanged. *)
Definition ascii_lower (c : codepoint) : codepoint :=
  if is_ascii_upper c then (c + 32)%N else c.

(** [str.lower()].  On text with a code point outside ASCII the result is
    that of the interpreter's Unicode case tables, [unicode_lower], which
    the embedding leaves open. *)
Definition lower (unicode_lower : pystr -> pystr) (s : pystr) : pystr :=
  if forallb is_ascii s then ascii_lower <$> s else unicode_lower s.

(** The character class [[a-z0-9]]. *)
Definition is_lower_alnum (c : codepoint) : bool :=
  ((97 <=? c)%N && (c <=? 122)%N) || ((48 <=? c)%N && (c <=? 57)%N).

(** [re.sub(r"[^a-z0-9]", "", s)]: every character outside the class is
    replaced by the empty string. *)
Definition re_sub_non_alnum (s : pystr) : pystr :=
  List.filter is_lower_alnum s.

(** [s[:n]] for a non-negative literal [n]. *)
Definition slice_to (n : nat) (s : pystr) : pystr := firstn n s.

(** The whitespace of [str.strip()] and [str.isspace()]. *)
Definition isspace (c : codepoint) : bool :=
  ((9 <=? c)%N && (c <=? 13)%N) || ((28 <=? c)%N && (c <=? 32)%N)
  || (c =? 133)%N || (c =? 160)%N || (c =? 5760)%N
  || ((8192 <=? c)%N && (c <=? 8202)%N)
  || (c =? 8232)%N || (c =? 8233)%N || (c =? 8239)%N || (c =? 8287)%N
  || (c =? 12288)%N.

Fixpoint lstrip (s : pystr) : pystr :=
  match s with
  | c :: s' => if isspace c then lstrip s' else s
  | [] => []
  end.

Definition rstrip (s : pystr) : pystr := rev (lstrip (rev s)).

Definition strip (s : pystr) : pystr := rstrip (lstrip s).

(** Truth value of a [str]: false exactly for the empty string. *)
Definition truthy (s : pystr) : bool :=
  match s with [] => false | _ :: _ => true end.

(** [str(n)] for an [int]. *)
Definition of_int (n : Z) : pystr := py (NilZero.string_of_int (Z.to_int n)).

End Str.

(** ** Exceptions and the handler monad *)

(** A raised exception: its class and [str(e)].  Every exception of the
    model is an [Exception], so [except:] and [except Exception:] catch the
    same ones. *)
Record exn := Exn { exc_type : pystr; exc_str : pystr }.

Inductive result (A : Type) : Type :=
| Ok (a : A)
| Raise (e : exn).
Arguments Ok {A} a.
Arguments Raise {A} e.

(** A computation over a world [W]: it returns or raises, and leaves a world. *)
Definition M (W A : Type) : Type := W -> result A * W.

Definition ret {W A} (a : A) : M W A := fun w => (Ok a, w).

Definition bind {W A B} (m : M W A) (k : A -> M W B) : M W B :=
  fun w =>
    match m w with
    | (Ok a, w') => k a w'
    | (Raise e, w') => (Raise e, w')
    end.

Definition raise {W A} (e : exn) : M W A := fun w => (Raise e, w).

(** [try: m  except Exception as e: h e]. *)
Definition try_except {W A} (m : M W A) (h : exn -> M W A) : M W A :=
  fun w =>
    match m w with
    | (Ok a, w') => (Ok a, w')
    | (Raise e, w') => h e w'
    end.

Declare Scope py_scope.
Delimit Scope py_scope with py_m.
Notation "x <- m ;; k" := (bind m (fun x => k))
  (at level 100, m at next level, right associativity) : py_scope.
Notation "m ;; k" := (bind m (fun _ => k))
  (at level 100, right associativity) : py_scope.
Open Scope py_scope.

(** ** Python values that cross the HTTP boundary *)

(** What [json.loads] returns and [json.dumps] accepts.  A [dict] keeps its
    items in insertion order. *)
#[local] Set Warnings "-register-all".
Inductive json : Type :=
| JNull
| JBool (b : bool)
| JInt (n : Z)
| JFloat (f : float)
| JStr (s : pystr)
| JArr (xs : list json)
| JObj (items : list (pystr * json)).

Module Py.

(** [type(v).__name__]. *)
Definition type_name (v : json) : pystr :=
  match v with
  | JNull => py "NoneType"
  | JBool _ => py "bool"
  | JInt _ => py "int"
  | JFloat _ => py "float"
  | JStr _ => py "str"
  | JArr _ => py "list"
  | JObj _ => py "dict"
  end.

(** [bool(v)]. *)
Definition truthy (v : json) : bool :=
  match v with
  | JNull => false
  | JBool b => b
  | JInt n => negb (n =? 0)
  | JFloat f => negb (PrimFloat.eqb f PrimFloat.zero)
  | JStr s => Str.truthy s
  | JArr xs => match xs with [] => false | _ => true end
  | JObj items => match items with [] => false | _ => true end
  end.

Definition isinstance_str (v : json) : bool :=
  match v with JStr _ => true | _ => false end.

(** Lookup in a [dict]: the binding inserted last for the key. *)
Definition dict_lookup (k : pystr) (items : list (pystr * json)) : option json :=
  snd <$> List.find (fun kv => bool_decide (fst kv = k)) (rev items).

Definition AttributeError (v : json) (attr : pystr) : exn :=
  Exn (py "AttributeError")
      (py "'" ++ type_name v ++ py "' object has no attribute '" ++ attr ++ py "'").

Definition KeyError (k : pystr) : exn :=
  Exn (py "KeyError") (py "'" ++ k ++ py "'").

Definition IndexError : exn :=
  Exn (py "IndexError") (py "list index out of range").

(** The value of key [k] in a [dict] [v], when it has one. *)
Definition field (k : pystr) (v : json) : option json :=
  match v with
  | JObj items => dict_lookup k items
  | _ => None
  end.

(** [v.get(k, dflt)]: defined on a [dict] only. *)
Definition get {W} (v : json) (k : pystr) (dflt : json) : M W json :=
  match v with
  | JObj items => ret (default dflt (dict_lookup k items))
  | _ => raise (AttributeError v (py "get"))
  end.

(** [v[k]] on a [dict]. *)
Definition getitem {W} (v : json) (k : pystr) : M W json :=
  match v with
  | JObj items =>
      match dict_lookup k items with
      | Some x => ret x
      | None => raise (KeyError k)
      end
  | _ => raise (Exn (py "TypeError") (py "'" ++ type_name v ++ py "' object is not subscriptable"))
  end.

(** [v.strip()] and [v.lower()]: methods of [str] only. *)
Definition strip {W} (v : json) : M W pystr :=
  match v with
  | JStr s => ret (Str.strip s)
  | _ => raise (AttributeError v (py "strip"))
  end.

Definition lower {W} (unicode_lower : pystr -> pystr) (v : json) : M W pystr :=
  match v with
  | JStr s => ret (Str.lower unicode_lower s)
  | _ => raise (AttributeError v (py "lower"))
  end.

End Py.

(** ** [azure.functions]: requests and responses *)

(** [get_json] is [None] when [req.get_json()] raises [ValueError] (the body
    is not valid JSON), and the decoded value otherwise. *)
Record HttpRequest := { get_json : option json }.

(** A response body: a text, or the text [json.dumps(v, indent=...)]. *)
Inductive body : Type :=
| Text (s : pystr)
| JsonDumps (v : json) (indent : option Z).

(** [mimetype] is [None] where the handler passes none (the library's
    default, plain text). *)
Record HttpResponse := {
  resp_body : body;
  mimetype : option pystr;
  status_code : Z
}.

(** ** [logging] *)

Inductive LogLevel := INFO | ERROR.

Record LogRecord := { levelname : LogLevel; message : pystr; exc_info : bool }.

(** * [create_db]: the resource provisioner *)

Module CreateDb.

(** ** The SDK objects the handler builds and passes on *)

Record DefaultAzureCredential := { }.

Record StorageManagementClient := {
  storage_credential : DefaultAzureCredential;
  storage_subscription_id : option pystr
}.

Record CognitiveServicesManagementClient := {
  cog_credential : DefaultAzureCredential;
  cog_subscription_id : option pystr
}.

(** The parameters [dict] of [storage_accounts.begin_create]. *)
Record StorageAccountCreateParameters := {
  sku : pystr;
  storage_kind : pystr;
  storage_location : pystr;
  enable_https_traffic_only : bool
}.

(** [CognitiveServicesAccountCreateParameters(location, sku=Sku(name), kind)]. *)
Record CognitiveServicesAccountCreateParameters := {
  cog_location : pystr;
  cog_sku : pystr;
  cog_kind : pystr
}.

Inductive LROPoller :=
| StoragePoller (resource_group_name : option pystr) (account_name : pystr)
| CognitivePoller (resource_group_name : option pystr) (account_name : pystr).

Record SearchIndexClient := {
  client_endpoint : pystr;
  client_credential : option pystr
}.

Inductive SearchFieldDataType :=
| String_
| Single
| Collection (t : SearchFieldDataType).

Inductive FieldHelper := SimpleField | SearchableField.

(** A call [SimpleField(...)] or [SearchableField(...)]: the helper and its
    keyword arguments, [None] for one that is not passed.  The helpers are
    the SDK's: what they make of their arguments is not this module's code,
    and a field is kept as the call that asks for it. *)
Record SearchField := {
  helper : FieldHelper;
  name : pystr;
  type : SearchFieldDataType;
  key : option bool;
  searchable : option bool;
  filterable : option bool;
  facetable : option bool;
  analyzer_name : option pystr;
  vector_search_dimensions : option Z;
  vector_search_configuration : option pystr
}.

Record VectorSearchAlgorithmConfiguration := {
  config_name : pystr;
  config_kind : pystr;
  parameters : list (pystr * Z)
}.

Record VectorSearch := {
  algorithm_configurations : list VectorSearchAlgorithmConfiguration
}.

Record SearchIndex := {
  index_name_ : pystr;
  fields : list SearchField;
  vector_search : VectorSearch
}.

(** ** External calls *)

(** Every construction of an SDK client and every operation through one. *)
Inductive Call : Type :=
| NewDefaultAzureCredential
| NewStorageManagementClient (credential : DefaultAzureCredential) (subscription_id : option pystr)
| NewCognitiveServicesManagementClient (credential : DefaultAzureCredential) (subscription_id : option pystr)
| StorageGetProperties (c : StorageManagementClient) (resource_group_name : option pystr) (account_name : pystr)
| StorageBeginCreate (c : StorageManagementClient) (resource_group_name : option pystr) (account_name : pystr)
    (params : StorageAccountCreateParameters)
| StorageListKeys (c : StorageManagementClient) (resource_group_name : option pystr) (account_name : pystr)
| AccountsGet (c : CognitiveServicesManagementClient) (resource_group_name : option pystr) (account_name : pystr)
| AccountsBeginCreate (c : CognitiveServicesManagementClient) (resource_group_name : option pystr)
    (account_name : pystr) (params : CognitiveServicesAccountCreateParameters)
| AccountsListKeys (c : CognitiveServicesManagementClient) (resource_group_name : option pystr) (account_name : pystr)
| PollerResult (p : LROPoller)
| NewSearchIndexClient (endpoint : pystr) (credential : option pystr)
| CreateOrUpdateIndex (c : SearchIndexClient) (index : SearchIndex).

(** The cloud behind the SDK, as the handler sees it: each operation
    returns or raises and moves the provider's state.  [list_keys] of a
    storage account gives the [value] of each entry of [keys.keys];
    [list_keys] of a cognitive account gives [keys.primary_key].
    [time_time] is [int(time.time())]. *)
Class Azure (S : Type) := {
  new_credential : S -> result DefaultAzureCredential * S;
  new_storage_client :
    DefaultAzureCredential -> option pystr -> S -> result StorageManagementClient * S;
  new_cog_client :
    DefaultAzureCredential -> option pystr -> S -> result CognitiveServicesManagementClient * S;
  storage_get_properties :
    StorageManagementClient -> option pystr -> pystr -> S -> result unit * S;
  storage_begin_create :
    StorageManagementClient -> option pystr -> pystr -> StorageAccountCreateParameters ->
    S -> result LROPoller * S;
  storage_list_keys :
    StorageManagementClient -> option pystr -> pystr -> S -> result (list pystr) * S;
  accounts_get :
    CognitiveServicesManagementClient -> option pystr -> pystr -> S -> result unit * S;
  accounts_begin_create :
    CognitiveServicesManagementClient -> option pystr -> pystr ->
    CognitiveServicesAccountCreateParameters -> S -> result LROPoller * S;
  accounts_list_keys :
    CognitiveServicesManagementClient -> option pystr -> pystr -> S -> result (option pystr) * S;
  poller_result : LROPoller -> S -> result unit * S;
  new_search_index_client : pystr -> option pystr -> S -> result SearchIndexClient * S;
  create_or_update_index : SearchIndexClient -> SearchIndex -> S -> result unit * S;
  time_time : S -> Z * S
}.

(** The process and what it talks to: the provider's state, the external
    calls made so far (oldest first), the log, and the module's global
    [AZURE_STORAGE_ACCOUNT_KEY]. *)
Record World (S : Type) := mkWorld {
  azure : S;
  calls : list Call;
  log_records : list LogRecord;
  AZURE_STORAGE_ACCOUNT_KEY : json
}.
Arguments mkWorld {S} _ _ _ _.
Arguments azure {S} _.
Arguments calls {S} _.
Arguments log_records {S} _.
Arguments AZURE_STORAGE_ACCOUNT_KEY {S} _.

(** [re.sub(r"[^a-z0-9]", "", lowered)[:20]], for [lowered = title.lower()]. *)
Definition sanitize (lowered : pystr) : pystr :=
  Str.slice_to 20 (Str.re_sub_non_alnum lowered).

Section Handler.

Context {S : Type} `{Azure S}.

(** [str.lower] outside ASCII (see [Str.lower]). *)
Variable unicode_lower : pystr -> pystr.

(** [os.environ]. *)
Variable environ : gmap pystr pystr.

#[local] Abbreviation M := (M (World S)).

Definition emit (r : LogRecord) : M unit :=
  fun w => (Ok tt, mkWorld (azure w) (calls w) (log_records w ++ [r]) (AZURE_STORAGE_ACCOUNT_KEY w)).

Definition logger_info (msg : pystr) : M unit :=
  emit {| levelname := INFO; message := msg; exc_info := false |}.

Definition logger_error (msg : pystr) (with_exc_info : bool) : M unit :=
  emit {| levelname := ERROR; message := msg; exc_info := with_exc_info |}.

Definition print_info (msg : pystr) : M unit := logger_info msg.

Definition print_success (msg : pystr) : M unit :=
  logger_info (py "SUCCESS: " ++ msg).

Definition print_error (msg : pystr) : M unit :=
  logger_error (py "ERROR: " ++ msg) false.

(** An external call: recorded, then performed by the provider. *)
Definition sdk {A} (c : Call) (op : S -> result A * S) : M A :=
  fun w =>
    let (r, s') := op (azure w) in
    (r, mkWorld s' (calls w ++ [c]) (log_records w) (AZURE_STORAGE_ACCOUNT_KEY w)).

(** [int(time.time())]. *)
Definition now : M Z :=
  fun w =>
    let (t, s') := time_time (azure w) in
    (Ok t, mkWorld s' (calls w) (log_records w) (AZURE_STORAGE_ACCOUNT_KEY w)).

Definition set_AZURE_STORAGE_ACCOUNT_KEY (v : json) : M unit :=
  fun w => (Ok tt, mkWorld (azure w) (calls w) (log_records w) v).

(** [keys.keys[0].value]. *)
Definition first_key_value (keys : list pystr) : M pystr :=
  match keys with
  | k :: _ => ret k
  | [] => raise Py.IndexError
  end.

(** [None] prints as [None] in an f-string; a [str] as itself. *)
Definition fmt_opt (o : option pystr) : pystr :=
  match o with Some s => s | None => py "None" end.

Definition create_storage_account (storage_client : StorageManagementClient)
    (resource_group_name : option pystr) (storage_name : pystr) (location : pystr) : M json :=
  print_info (py "Creating storage account '" ++ storage_name ++ py "' in '" ++ location ++ py "'...") ;;
  try_except
    (try_except
       (sdk (StorageGetProperties storage_client resource_group_name storage_name)
            (storage_get_properties storage_client resource_group_name storage_name) ;;
        print_info (py "Storage account '" ++ storage_name ++ py "' already exists."))
       (fun _ =>
        let params := {| sku := py "Standard_LRS";
                         storage_kind := py "StorageV2";
                         storage_location := location;
                         enable_https_traffic_only := true |} in
        poller <- sdk (StorageBeginCreate storage_client resource_group_name storage_name params)
                      (storage_begin_create storage_client resource_group_name storage_name params) ;;
        sdk (PollerResult poller) (poller_result poller) ;;
        print_success (py "Storage account '" ++ storage_name ++ py "' created.")) ;;
     keys <- sdk (StorageListKeys storage_client resource_group_name storage_name)
                 (storage_list_keys storage_client resource_group_name storage_name) ;;
     storage_key <- first_key_value keys ;;
     let storage_url := py "https://" ++ storage_name ++ py ".blob.core.windows.net" in
     ret (JObj [ (py "AZURE_STORAGE_URL", JStr storage_url);
                 (py "AZURE_STORAGE_NAME", JStr storage_name);
                 (py "AZURE_STORAGE_KEY", JStr storage_key) ]))
    (fun e =>
     print_error (py "Failed to create storage account: " ++ exc_str e) ;;
     raise e).

(** The [VectorSearch(...)] value of [create_vector_database_and_index]. *)
Definition the_vector_search : VectorSearch :=
  {| algorithm_configurations :=
       [ {| config_name := py "my-vector-config";
            config_kind := py "hnsw";
            parameters := [ (py "m", 4); (py "efConstruction", 400); (py "efSearch", 200) ] |} ] |}.

(** The [fields] list of [create_vector_database_and_index]. *)
Definition the_fields : list SearchField :=
  [ {| helper := SimpleField; name := py "id"; type := String_;
       key := Some true; searchable := None; filterable := None; facetable := None;
       analyzer_name := None; vector_search_dimensions := None;
       vector_search_configuration := None |};
    {| helper := SearchableField; name := py "content"; type := String_;
       key := None; searchable := Some true; filterable := None; facetable := None;
       analyzer_name := Some (py "en.lucene"); vector_search_dimensions := None;
       vector_search_configuration := None |};
    {| helper := SimpleField; name := py "metadata_author"; type := String_;
       key := None; searchable := None; filterable := Some true; facetable := Some true;
       analyzer_name := None; vector_search_dimensions := None;
       vector_search_configuration := None |};
    {| helper := SimpleField; name := py "metadata_category"; type := String_;
       key := None; searchable := None; filterable := Some true; facetable := Some true;
       analyzer_name := None; vector_search_dimensions := None;
       vector_search_configuration := None |};
    {| helper := SimpleField; name := py "contentVector"; type := Collection Single;
       key := None; searchable := Some true; filterable := None; facetable := None;
       analyzer_name := None; vector_search_dimensions := Some 1536;
       vector_search_configuration := Some (py "my-vector-config") |} ].

(** [not admin_key]. *)
Definition no_key (admin_key : option pystr) : bool :=
  match admin_key with
  | None => true
  | Some k => negb (Str.truthy k)
  end.

Definition create_vector_database_and_index (cog_client : CognitiveServicesManagementClient)
    (resource_group_name : option pystr) (search_account_name : pystr) (location : pystr)
    (index_name : pystr) (admin_key : option pystr) : M json :=
  print_info (py "Creating Cognitive Search service '" ++ search_account_name
              ++ py "' in '" ++ location ++ py "'...") ;;
  try_except
    (try_except
       (sdk (AccountsGet cog_client resource_group_name search_account_name)
            (accounts_get cog_client resource_group_name search_account_name) ;;
        print_info (py "Cognitive Search service '" ++ search_account_name ++ py "' already exists."))
       (fun _ =>
        let params := {| cog_location := location; cog_sku := py "S1"; cog_kind := py "Search" |} in
        poller <- sdk (AccountsBeginCreate cog_client resource_group_name search_account_name params)
                      (accounts_begin_create cog_client resource_group_name search_account_name params) ;;
        sdk (PollerResult poller) (poller_result poller) ;;
        print_success (py "Cognitive Search service '" ++ search_account_name ++ py "' created.")) ;;
     admin_key <- (if no_key admin_key then
                     primary_key <- sdk (AccountsListKeys cog_client resource_group_name search_account_name)
                                        (accounts_list_keys cog_client resource_group_name search_account_name) ;;
                     print_info (py "Retrieved admin key for Search service '"
                                 ++ search_account_name ++ py "'.") ;;
                     ret primary_key
                   else ret admin_key) ;;
     let endpoint := py "https://" ++ search_account_name ++ py ".search.windows.net" in
     search_client <- sdk (NewSearchIndexClient endpoint admin_key)
                          (new_search_index_client endpoint admin_key) ;;
     let vector_search := the_vector_search in
     let fields := the_fields in
     let index := {| index_name_ := index_name; fields := fields; vector_search := vector_search |} in
     print_info (py "Creating/updating search index '" ++ index_name ++ py "'...") ;;
     sdk (CreateOrUpdateIndex search_client index) (create_or_update_index search_client index) ;;
     print_success (py "Search index '" ++ index_name ++ py "' created/updated.") ;;
     ret (JObj [ (py "search_endpoint", JStr endpoint);
                 (py "search_admin_key", match admin_key with Some k => JStr k | None => JNull end);
                 (py "index_name", JStr index_name) ]))
    (fun e =>
     print_error (py "Failed to create vector database and index: " ++ exc_str e) ;;
     raise e).

(** [not v] for the value of [os.environ.get(...)]. *)
Definition unset (v : option pystr) : bool :=
  match v with
  | None => true
  | Some s => negb (Str.truthy s)
  end.

Definition text_response (msg : pystr) (status : Z) : HttpResponse :=
  {| resp_body := Text msg; mimetype := None; status_code := status |}.

Definition main (req : HttpRequest) : M HttpResponse :=
  logger_info (py "Processing create_db request...") ;;
  match get_json req with
  | None => ret (text_response (py "Invalid JSON body") 400)
  | Some req_body =>
    title <- Py.get req_body (py "title") JNull ;;
    description <- Py.get req_body (py "description") (JStr []) ;;
    tags <- Py.get req_body (py "tags") (JArr []) ;;
    rejected <- (if negb (Py.truthy title) then ret true
                 else if negb (Py.isinstance_str title) then ret true
                 else stripped <- Py.strip title ;; ret (negb (Str.truthy stripped))) ;;
    if (rejected : bool) then
      ret (text_response (py "Missing or invalid 'title' in request body") 400)
    else
      lowered <- Py.lower unicode_lower title ;;
      let sanitized_title := sanitize lowered in
      let subscription_id := environ !! py "AZURE_SUBSCRIPTION_ID" in
      let resource_group := environ !! py "AZURE_RESOURCE_GROUP" in
      let location := default (py "eastus") (environ !! py "AZURE_LOCATION") in
      let storage_account_base := default (py "mystorageacct") (environ !! py "STORAGE_ACCOUNT_BASE") in
      let search_account_base := default (py "mysearchacct") (environ !! py "SEARCH_ACCOUNT_BASE") in
      let index_name := default (py "rag-vector-index") (environ !! py "SEARCH_INDEX_NAME") in
      if unset subscription_id || unset resource_group then
        ret (text_response
               (py "Missing required environment variables: AZURE_SUBSCRIPTION_ID or AZURE_RESOURCE_GROUP")
               500)
      else
        try_except
          (credential <- sdk NewDefaultAzureCredential new_credential ;;
           storage_client <- sdk (NewStorageManagementClient credential subscription_id)
                                 (new_storage_client credential subscription_id) ;;
           cog_client <- sdk (NewCognitiveServicesManagementClient credential subscription_id)
                             (new_cog_client credential subscription_id) ;;
           t <- now ;;
           let storage_account_name := storage_account_base ++ Str.of_int (t mod 10000) in
           storage_config <- create_storage_account storage_client resource_group
                               storage_account_name location ;;
           storage_key <- Py.getitem storage_config (py "AZURE_STORAGE_KEY") ;;
           set_AZURE_STORAGE_ACCOUNT_KEY storage_key ;;
           AZURE_STORAGE_URL <- Py.getitem storage_config (py "AZURE_STORAGE_URL") ;;
           t' <- now ;;
           let search_account_name := search_account_base ++ Str.of_int (t' mod 10000) in
           vector_db_config <- create_vector_database_and_index cog_client resource_group
                                 search_account_name location index_name None ;;
           let response_payload :=
             JObj [ (py "storage", storage_config); (py "vector_search", vector_db_config) ] in
           ret {| resp_body := JsonDumps response_payload None;
                  mimetype := Some (py "application/json");
                  status_code := 200 |})
          (fun e =>
           logger_error (py "Error in main function: " ++ exc_str e) true ;;
           ret (text_response (py "Error: " ++ exc_str e) 500))
  end.

End Handler.

(** ** Reading requests and the record of calls *)

(** A title the validator accepts: a [str] that is not blank once stripped. *)
Definition title_ok (title : json) : bool :=
  match title with
  | JStr s => Str.truthy (Str.strip s)
  | _ => false
  end.


(** The calls that create a storage or a cognitive account. *)
Definition is_creation (c : Call) : bool :=
  match c with
  | StorageBeginCreate _ _ _ _ | AccountsBeginCreate _ _ _ _ => true
  | _ => false
  end.

(** The account a management-plane call names. *)
Definition account_of_call (c : Call) : option pystr :=
  match c with
  | StorageGetProperties _ _ n | StorageBeginCreate _ _ n _ | StorageListKeys _ _ n
  | AccountsGet _ _ n | AccountsBeginCreate _ _ n _ | AccountsListKeys _ _ n => Some n
  | _ => None
  end.

(** [s.startswith(p)]. *)
Fixpoint startswith (p s : pystr) : bool :=
  match p, s with
  | [], _ => true
  | c :: p', d :: s' => (c =? d)%N && startswith p' s'
  | _ :: _, [] => false
  end.

(** A request whose body is the JSON object [{"title": title}]. *)
Definition request_with_title (title : pystr) : HttpRequest :=
  {| get_json := Some (JObj [ (py "title", JStr title) ]) |}.

(** A deployment with the two mandatory settings and no other. *)
Definition sample_environ : gmap pystr pystr :=
  <[py "AZURE_SUBSCRIPTION_ID" := py "sub-0"]> (<[py "AZURE_RESOURCE_GROUP" := py "rg-0"]> ∅).

End CreateDb.

(** * A reference provider

    One resource group namespace of storage accounts, cognitive accounts
    and search indexes, following the documented behaviour of the
    management plane: a probe or a key listing of an absent resource
    raises, creation inserts the resource (and keeps the keys of one that
    exists), create-or-update of an index overwrites by name, and
    completing a creation takes time. *)

Module SimAzure.
Import CreateDb.

Record StorageAccount := {
  sa_params : StorageAccountCreateParameters;
  key1 : pystr;
  key2 : pystr
}.

Record CognitiveAccount := {
  ca_params : CognitiveServicesAccountCreateParameters;
  primary_key : pystr;
  secondary_key : pystr
}.

Record Sim := mkSim {
  storage_accounts : gmap (option pystr * pystr) StorageAccount;
  cognitive_accounts : gmap (option pystr * pystr) CognitiveAccount;
  indexes : gmap (pystr * pystr) SearchIndex;
  clock : Z
}.

Definition ResourceNotFoundError (account_name : pystr) : exn :=
  Exn (py "ResourceNotFoundError")
      (py "(ResourceNotFound) The Resource '" ++ account_name ++ py "' was not found.").

(** Seconds the provider takes to complete a creation. *)
Definition provisioning_seconds : Z := 17.

Definition sim_storage_get_properties (rg : option pystr) (n : pystr) (s : Sim) : result unit * Sim :=
  match storage_accounts s !! (rg, n) with
  | Some _ => (Ok tt, s)
  | None => (Raise (ResourceNotFoundError n), s)
  end.

Definition sim_storage_begin_create (rg : option pystr) (n : pystr)
    (p : StorageAccountCreateParameters) (s : Sim) : result LROPoller * Sim :=
  let acct :=
    match storage_accounts s !! (rg, n) with
    | Some a => {| sa_params := p; key1 := key1 a; key2 := key2 a |}
    | None => {| sa_params := p; key1 := py "key1/" ++ n; key2 := py "key2/" ++ n |}
    end in
  (Ok (StoragePoller rg n),
   mkSim (<[(rg, n) := acct]> (storage_accounts s)) (cognitive_accounts s) (indexes s) (clock s)).

Definition sim_storage_list_keys (rg : option pystr) (n : pystr) (s : Sim) : result (list pystr) * Sim :=
  match storage_accounts s !! (rg, n) with
  | Some a => (Ok [key1 a; key2 a], s)
  | None => (Raise (ResourceNotFoundError n), s)
  end.

Definition sim_accounts_get (rg : option pystr) (n : pystr) (s : Sim) : result unit * Sim :=
  match cognitive_accounts s !! (rg, n) with
  | Some _ => (Ok tt, s)
  | None => (Raise (ResourceNotFoundError n), s)
  end.

Definition sim_accounts_begin_create (rg : option pystr) (n : pystr)
    (p : CognitiveServicesAccountCreateParameters) (s : Sim) : result LROPoller * Sim :=
  let acct :=
    match cognitive_accounts s !! (rg, n) with
    | Some a => {| ca_params := p; primary_key := primary_key a; secondary_key := secondary_key a |}
    | None => {| ca_params := p; primary_key := py "primary/" ++ n; secondary_key := py "secondary/" ++ n |}
    end in
  (Ok (CognitivePoller rg n),
   mkSim (storage_accounts s) (<[(rg, n) := acct]> (cognitive_accounts s)) (indexes s) (clock s)).

Definition sim_accounts_list_keys (rg : option pystr) (n : pystr) (s : Sim)
    : result (option pystr) * Sim :=
  match cognitive_accounts s !! (rg, n) with
  | Some a => (Ok (Some (primary_key a)), s)
  | None => (Raise (ResourceNotFoundError n), s)
  end.

Definition sim_poller_result (p : LROPoller) (s : Sim) : result unit * Sim :=
  (Ok tt, mkSim (storage_accounts s) (cognitive_accounts s) (indexes s)
                (clock s + provisioning_seconds)).

Definition sim_create_or_update_index (c : SearchIndexClient) (index : SearchIndex) (s : Sim)
    : result unit * Sim :=
  (Ok tt,
   mkSim (storage_accounts s) (cognitive_accounts s)
         (<[(client_endpoint c, index_name_ index) := index]> (indexes s)) (clock s)).

#[export] Instance sim_azure : Azure Sim := {|
  new_credential s := (Ok Build_DefaultAzureCredential, s);
  new_storage_client cred sub s :=
    (Ok {| storage_credential := cred; storage_subscription_id := sub |}, s);
  new_cog_client cred sub s :=
    (Ok {| cog_credential := cred; cog_subscription_id := sub |}, s);
  storage_get_properties _ := sim_storage_get_properties;
  storage_begin_create _ := sim_storage_begin_create;
  storage_list_keys _ := sim_storage_list_keys;
  accounts_get _ := sim_accounts_get;
  accounts_begin_create _ := sim_accounts_begin_create;
  accounts_list_keys _ := sim_accounts_list_keys;
  poller_result := sim_poller_result;
  new_search_index_client endpoint cred s :=
    (Ok {| client_endpoint := endpoint; client_credential := cred |}, s);
  create_or_update_index := sim_create_or_update_index;
  time_time s := (clock s, s)
|}.

(** A subscription with nothing in it, at a given time. *)
Definition empty_at (t : Z) : Sim := mkSim ∅ ∅ ∅ t.

(** A fresh process talking to provider state [s]. *)
Definition boot (s : Sim) : World Sim := mkWorld s [] [] JNull.

(** A resource group that already holds a storage account and a cognitive
    account. *)
Definition stocked : Sim :=
  mkSim
    {[ (Some (py "rg-0"), py "mystorageacct1234") :=
         {| sa_params := {| sku := py "Standard_LRS"; storage_kind := py "StorageV2";
                            storage_location := py "eastus";
                            enable_https_traffic_only := true |};
            key1 := py "k1"; key2 := py "k2" |} ]}
    {[ (Some (py "rg-0"), py "mysearchacct1251") :=
         {| ca_params := {| cog_location := py "eastus"; cog_sku := py "S1";
                            cog_kind := py "Search" |};
            primary_key := py "p1"; secondary_key := py "p2" |} ]}
    ∅ 1700001300.

(** The key the search step is to hand back: the one passed in, or else
    the account's primary key. *)
Definition returned_key (admin_key : option pystr) (acct : CognitiveAccount) : option pystr :=
  if no_key admin_key then Some (primary_key acct) else admin_key.

(** The clients of the sample deployment. *)
Definition sample_storage_client : StorageManagementClient :=
  {| storage_credential := Build_DefaultAzureCredential;
     storage_subscription_id := Some (py "sub-0") |}.

Definition sample_cog_client : CognitiveServicesManagementClient :=
  {| cog_credential := Build_DefaultAzureCredential;
     cog_subscription_id := Some (py "sub-0") |}.

End SimAzure.

(** * [list_db]: the catalog lister *)

Module ListDb.

(** ** Rows *)

(** A column value as the driver hands it over. *)
Inductive sqlval : Type :=
| SqlNull
| SqlInt (n : Z)
| SqlStr (s : pystr).

#[export] Instance sqlval_eq_dec : EqDecision sqlval.
Proof. solve_decision. Defined.

Definition sqlval_enc (v : sqlval) : option (Z + pystr) :=
  match v with
  | SqlNull => None
  | SqlInt n => Some (inl n)
  | SqlStr s => Some (inr s)
  end.

Definition sqlval_dec (x : option (Z + pystr)) : sqlval :=
  match x with
  | None => SqlNull
  | Some (inl n) => SqlInt n
  | Some (inr s) => SqlStr s
  end.

#[export] Instance sqlval_countable : Countable sqlval.
Proof. apply (inj_countable' sqlval_enc sqlval_dec). by intros []. Defined.

(** The value in the JSON payload. *)
Definition to_json (v : sqlval) : json :=
  match v with
  | SqlNull => JNull
  | SqlInt n => JInt n
  | SqlStr s => JStr s
  end.

(** [bool(v)]. *)
Definition truthy (v : sqlval) : bool :=
  match v with
  | SqlNull => false
  | SqlInt n => negb (n =? 0)
  | SqlStr s => Str.truthy s
  end.

(** A [datetime] column value, by the text [isoformat()] gives for it. *)
Record datetime := { isoformat : pystr }.

(** [v.isoformat() if v else None]: a [datetime] is always true. *)
Definition isoformat_or_None (v : option datetime) : json :=
  match v with
  | Some d => JStr (isoformat d)
  | None => JNull
  end.

(** A row of the [databases] query.  [rating] is the column value by the
    number [float()] gives for it, [None] for NULL. *)
Record DatabaseRow := {
  id : sqlval;
  name : sqlval;
  description : sqlval;
  type : sqlval;
  isPublic : sqlval;
  lastUpdated : option datetime;
  documentCount : sqlval;
  usageCount : sqlval;
  rating : option float;
  owner_id : sqlval;
  vector_search_enabled : sqlval;
  vector_search_endpoint : sqlval;
  vector_search_key : sqlval;
  vector_search_index : sqlval;
  vector_search_semantic_config : sqlval;
  vector_search_embedding_deployment : sqlval;
  vector_search_embedding_endpoint : sqlval;
  vector_search_embedding_key : sqlval;
  vector_search_storage_endpoint : sqlval;
  vector_search_storage_access_key : sqlval;
  vector_search_storage_connection_string : sqlval
}.

(** [SELECT id, name FROM users]. *)
Record UserRow := { u_id : sqlval; u_name : sqlval }.

(** [SELECT dc.database_id, u.id as user_id, u.name ...]. *)
Record ContributorRow := { c_database_id : sqlval; c_user_id : sqlval; c_name : sqlval }.

(** [SELECT database_id, name, size, type, uploadedAt FROM database_files]. *)
Record FileRow := {
  f_database_id : sqlval;
  f_name : sqlval;
  f_size : sqlval;
  f_type : sqlval;
  f_uploadedAt : option datetime
}.

(** [SELECT database_id, tag FROM database_tags], through a plain cursor:
    a tuple per row. *)
Definition TagRow : Type := sqlval * sqlval.

(** ** The driver *)

(** What each call to the MySQL driver does during one request, in the
    handler's order; a query is [cursor.execute] followed by
    [cursor.fetchall]. *)
Record MySQL := {
  get_mysql_connection : result unit;
  cursor_dictionary : result unit;
  query_databases : result (list DatabaseRow);
  query_users : result (list UserRow);
  query_contributors : result (list ContributorRow);
  query_files : result (list FileRow);
  cursor_plain : result unit;
  query_tags : result (list TagRow);
  cursor_close : result unit;
  cursor_close_again : result unit;
  conn_close : result unit
}.

(** The driver raises [e] at one of its calls. *)
Definition driver_raises (mysql : MySQL) (e : exn) : Prop :=
  get_mysql_connection mysql = Raise e \/ cursor_dictionary mysql = Raise e
  \/ query_databases mysql = Raise e \/ query_users mysql = Raise e
  \/ query_contributors mysql = Raise e \/ query_files mysql = Raise e
  \/ cursor_plain mysql = Raise e \/ query_tags mysql = Raise e
  \/ cursor_close mysql = Raise e \/ cursor_close_again mysql = Raise e
  \/ conn_close mysql = Raise e.

(** One of the five queries raises. *)
Definition query_fails (mysql : MySQL) : Prop :=
  (exists e, query_databases mysql = Raise e) \/ (exists e, query_users mysql = Raise e)
  \/ (exists e, query_contributors mysql = Raise e) \/ (exists e, query_files mysql = Raise e)
  \/ (exists e, query_tags mysql = Raise e).

(** Every driver call returns, the queries with these rows. *)
Definition answers (mysql : MySQL) (dbs : list DatabaseRow) (us : list UserRow)
    (cs : list ContributorRow) (fs : list FileRow) (ts : list TagRow) : Prop :=
  get_mysql_connection mysql = Ok tt /\ cursor_dictionary mysql = Ok tt
  /\ query_databases mysql = Ok dbs /\ query_users mysql = Ok us
  /\ query_contributors mysql = Ok cs /\ query_files mysql = Ok fs
  /\ cursor_plain mysql = Ok tt /\ query_tags mysql = Ok ts
  /\ cursor_close mysql = Ok tt /\ cursor_close_again mysql = Ok tt
  /\ conn_close mysql = Ok tt.

(** What a driver call raised, if it did. *)
Definition error_of {A} (r : result A) : option exn :=
  match r with
  | Ok _ => None
  | Raise e => Some e
  end.

(** The exceptions of a request, call by call. *)
Definition errors (mysql : MySQL) : list (option exn) :=
  [ error_of (get_mysql_connection mysql); error_of (cursor_dictionary mysql);
    error_of (query_databases mysql); error_of (query_users mysql);
    error_of (query_contributors mysql); error_of (query_files mysql);
    error_of (cursor_plain mysql); error_of (query_tags mysql);
    error_of (cursor_close mysql); error_of (cursor_close_again mysql);
    error_of (conn_close mysql) ].

(** The first exception of a request. *)
Definition first_error (mysql : MySQL) : option exn :=
  head (omap (fun o => o) (errors mysql)).

(** ** The handler *)

(** The world of the lister is its log. *)
#[local] Abbreviation M := (M (list LogRecord)).

Definition logger_info (msg : pystr) : M unit :=
  fun w => (Ok tt, w ++ [ {| levelname := INFO; message := msg; exc_info := false |} ]).

Definition logger_error (msg : pystr) (with_exc_info : bool) : M unit :=
  fun w => (Ok tt, w ++ [ {| levelname := ERROR; message := msg; exc_info := with_exc_info |} ]).

(** A driver call. *)
Definition driver {A} (r : result A) : M A := fun w => (r, w).

(** [m.setdefault(k, []).append(x)]. *)
Definition setdefault_append {V} (m : gmap sqlval (list V)) (k : sqlval) (x : V)
    : gmap sqlval (list V) :=
  <[k := default [] (m !! k) ++ [x]]> m.

(** [m.get(k, [])]. *)
Definition get_list {V} (m : gmap sqlval (list V)) (k : sqlval) : list V :=
  default [] (m !! k).

(** [{u['id']: u['name'] for u in rows}]. *)
Definition users_dict (rows : list UserRow) : gmap sqlval sqlval :=
  foldl (fun m u => <[u_id u := u_name u]> m) ∅ rows.

Definition contributor_entry (c : ContributorRow) : json :=
  JObj [ (py "id", to_json (c_user_id c)); (py "name", to_json (c_name c)) ].

Definition group_contributors (rows : list ContributorRow) : gmap sqlval (list json) :=
  foldl (fun m c => setdefault_append m (c_database_id c) (contributor_entry c)) ∅ rows.

Definition file_entry (f : FileRow) : json :=
  JObj [ (py "name", to_json (f_name f));
         (py "size", to_json (f_size f));
         (py "type", to_json (f_type f));
         (py "uploadedAt", isoformat_or_None (f_uploadedAt f)) ].

Definition group_files (rows : list FileRow) : gmap sqlval (list json) :=
  foldl (fun m f => setdefault_append m (f_database_id f) (file_entry f)) ∅ rows.

Definition group_tags (rows : list TagRow) : gmap sqlval (list json) :=
  foldl (fun m r => let '(db_id, tag) := r in setdefault_append m db_id (to_json tag)) ∅ rows.

(** The [dict] appended to [databases] for the row [db]. *)
Definition catalog_entry (users : gmap sqlval sqlval)
    (contributors_map files_map tags_map : gmap sqlval (list json)) (db : DatabaseRow) : json :=
  let db_id := id db in
  let owner_id := owner_id db in
  JObj [
    (py "id", to_json db_id);
    (py "name", to_json (name db));
    (py "description", to_json (description db));
    (py "type", to_json (type db));
    (py "owner", JObj [ (py "id", to_json owner_id);
                        (py "name", default (JStr (py "Unknown")) (to_json <$> users !! owner_id)) ]);
    (py "contributors", JArr (get_list contributors_map db_id));
    (py "isPublic", JBool (truthy (isPublic db)));
    (py "tags", JArr (get_list tags_map db_id));
    (py "lastUpdated", isoformat_or_None (lastUpdated db));
    (py "documentCount", to_json (documentCount db));
    (py "usageCount", to_json (usageCount db));
    (py "rating", match rating db with Some r => JFloat r | None => JNull end);
    (py "isSelected", JBool false);
    (py "files", JArr (get_list files_map db_id));
    (py "VECTOR_SEARCH_ENABLED", JBool (truthy (vector_search_enabled db)));
    (py "VECTOR_SEARCH_ENDPOINT", to_json (vector_search_endpoint db));
    (py "VECTOR_SEARCH_KEY", to_json (vector_search_key db));
    (py "VECTOR_SEARCH_INDEX", to_json (vector_search_index db));
    (py "VECTOR_SEARCH_SEMANTIC_CONFIG", to_json (vector_search_semantic_config db));
    (py "VECTOR_SEARCH_EMBEDDING_DEPLOYMENT", to_json (vector_search_embedding_deployment db));
    (py "VECTOR_SEARCH_EMBEDDING_ENDPOINT", to_json (vector_search_embedding_endpoint db));
    (py "VECTOR_SEARCH_EMBEDDING_KEY", to_json (vector_search_embedding_key db));
    (py "VECTOR_SEARCH_STORAGE_ENDPOINT", to_json (vector_search_storage_endpoint db));
    (py "VECTOR_SEARCH_STORAGE_ACCESS_KEY", to_json (vector_search_storage_access_key db));
    (py "VECTOR_SEARCH_STORAGE_CONNECTION_STRING", to_json (vector_search_storage_connection_string db))
  ].

Definition text_response (msg : pystr) (status : Z) : HttpResponse :=
  {| resp_body := Text msg; mimetype := None; status_code := status |}.

Definition main (mysql : MySQL) : M HttpResponse :=
  logger_info (py "Processing list_db request...") ;;
  try_except
    (driver (get_mysql_connection mysql) ;;
     driver (cursor_dictionary mysql) ;;
     databases_raw <- driver (query_databases mysql) ;;
     users_rows <- driver (query_users mysql) ;;
     let users := users_dict users_rows in
     contributors_raw <- driver (query_contributors mysql) ;;
     let contributors_map := group_contributors contributors_raw in
     files_raw <- driver (query_files mysql) ;;
     let files_map := group_files files_raw in
     driver (cursor_plain mysql) ;;
     tags_raw <- driver (query_tags mysql) ;;
     driver (cursor_close mysql) ;;
     let tags_map := group_tags tags_raw in
     driver (cursor_close_again mysql) ;;
     driver (conn_close mysql) ;;
     let databases := catalog_entry users contributors_map files_map tags_map <$> databases_raw in
     let response_payload := JObj [ (py "databases", JArr databases) ] in
     ret {| resp_body := JsonDumps response_payload (Some 2);
            mimetype := Some (py "application/json");
            status_code := 200 |})
    (fun e =>
     logger_error (py "Error in main function: " ++ exc_str e) true ;;
     ret (text_response (py "Error: " ++ exc_str e) 500)).

(** ** Sample stores *)

Definition sample_row : DatabaseRow :=
  {| id := SqlStr (py "db-1"); name := SqlStr (py "Papers"); description := SqlNull;
     type := SqlStr (py "vector"); isPublic := SqlInt 1; lastUpdated := None;
     documentCount := SqlInt 3; usageCount := SqlInt 0; rating := None;
     owner_id := SqlStr (py "u-9");
     vector_search_enabled := SqlInt 0; vector_search_endpoint := SqlNull;
     vector_search_key := SqlNull; vector_search_index := SqlNull;
     vector_search_semantic_config := SqlNull; vector_search_embedding_deployment := SqlNull;
     vector_search_embedding_endpoint := SqlNull; vector_search_embedding_key := SqlNull;
     vector_search_storage_endpoint := SqlNull; vector_search_storage_access_key := SqlNull;
     vector_search_storage_connection_string := SqlNull |}.

(** A store that answers every query. *)
Definition store (dbs : list DatabaseRow) (us : list UserRow) (cs : list ContributorRow)
    (fs : list FileRow) (ts : list TagRow) : MySQL :=
  {| get_mysql_connection := Ok tt; cursor_dictionary := Ok tt;
     query_databases := Ok dbs; query_users := Ok us; query_contributors := Ok cs;
     query_files := Ok fs; cursor_plain := Ok tt; query_tags := Ok ts;
     cursor_close := Ok tt; cursor_close_again := Ok tt; conn_close := Ok tt |}.

(** A store whose contributors query raises [e], the earlier ones having
    returned rows. *)
Definition store_failing_contributors (dbs : list DatabaseRow) (us : list UserRow) (e : exn) : MySQL :=
  {| get_mysql_connection := Ok tt; cursor_dictionary := Ok tt;
     query_databases := Ok dbs; query_users := Ok us; query_contributors := Raise e;
     query_files := Ok []; cursor_plain := Ok tt; query_tags := Ok [];
     cursor_close := Ok tt; cursor_close_again := Ok tt; conn_close := Ok tt |}.

Definition OperationalError (msg : pystr) : exn := Exn (py "OperationalError") msg.

(** One database whose owner is not in [users], beside rows of other
    databases. *)
Definition sample_users : list UserRow :=
  [ {| u_id := SqlStr (py "u-1"); u_name := SqlStr (py "Ann") |} ].

Definition sample_contributors : list ContributorRow :=
  [ {| c_database_id := SqlStr (py "db-2"); c_user_id := SqlStr (py "u-1");
       c_name := SqlStr (py "Ann") |} ].

Definition sample_files : list FileRow :=
  [ {| f_database_id := SqlStr (py "db-2"); f_name := SqlStr (py "a.pdf");
       f_size := SqlInt 1024; f_type := SqlStr (py "pdf"); f_uploadedAt := None |} ].

Definition sample_tags : list TagRow :=
  [ (SqlStr (py "db-2"), SqlStr (py "ml")) ].

Definition sample_store : MySQL :=
  store [sample_row] sample_users sample_contributors sample_files sample_tags.

End ListDb.

(** * [create_db]: the blob upload helper *)

Module BlobHelper.
Import CreateDb.

(** ** The data-plane objects *)

(** A [BlobServiceClient], by its [account_name]. *)
Record BlobServiceClient := { account_name : pystr }.

(** [blob_service_client.get_container_client(container_name)]. *)
Record ContainerClient := {
  container_service : BlobServiceClient;
  container_name : pystr
}.

(** [container_client.get_blob_client(blob_name)]. *)
Record BlobClient := {
  blob_container : ContainerClient;
  blob_name : pystr
}.

(** [BlobSasPermissions(read=...)]. *)
Record BlobSasPermissions := { read : bool }.

(** A point in time, in microseconds since the epoch. *)
Definition datetime : Type := Z.

(** The calls that leave the process. *)
Inductive BlobCall : Type :=
| CreateContainer (c : ContainerClient)
| UploadBlob (b : BlobClient) (data : list Byte.byte) (overwrite : bool)
| GenerateBlobSas (account : pystr) (container : pystr) (blob : pystr)
    (permission : BlobSasPermissions) (expiry : datetime) (account_key : json).

(** The blob service, its SDK and the clock, as the helper sees them.
    [get_container_client] and [get_blob_client] build a client without
    reaching the service, and raise when the SDK refuses the name.
    [plus_hours t h] is [t + timedelta(hours=h)], which raises when the
    result is out of the range of [datetime]. *)
Class BlobStorage (B : Type) := {
  get_container_client : BlobServiceClient -> pystr -> result ContainerClient;
  get_blob_client : ContainerClient -> pystr -> result BlobClient;
  create_container : ContainerClient -> B -> result unit * B;
  upload_blob : BlobClient -> list Byte.byte -> bool -> B -> result unit * B;
  generate_blob_sas :
    pystr -> pystr -> pystr -> BlobSasPermissions -> datetime -> json -> B -> result pystr * B;
  utcnow : B -> datetime * B;
  plus_hours : datetime -> Z -> result datetime
}.

(** The process of [CreateDb] together with the blob service it talks to
    and the data-plane calls made so far. *)
Record Process (S B : Type) := mkProcess {
  world : World S;
  blobs : B;
  blob_calls : list BlobCall
}.
Arguments mkProcess {S B} _ _ _.
Arguments world {S B} _.
Arguments blobs {S B} _.
Arguments blob_calls {S B} _.

Section Helper.

Context {S B : Type} `{BlobStorage B}.

#[local] Abbreviation Run := (M (Process S B)).

(** A computation of the module run inside the process. *)
Definition in_world {A} (m : M (World S) A) : Run A :=
  fun p =>
    let (r, w') := m (world p) in
    (r, mkProcess w' (blobs p) (blob_calls p)).

(** A data-plane call: recorded, then performed by the service. *)
Definition blob_sdk {A} (c : BlobCall) (op : B -> result A * B) : Run A :=
  fun p =>
    let (r, b') := op (blobs p) in
    (r, mkProcess (world p) b' (blob_calls p ++ [c])).

(** [datetime.utcnow()]. *)
Definition datetime_utcnow : Run datetime :=
  fun p =>
    let (t, b') := utcnow (blobs p) in
    (Ok t, mkProcess (world p) b' (blob_calls p)).

(** A pure operation that may raise. *)
Definition evaluate {A} (r : result A) : Run A := fun p => (r, p).

(** The module global [AZURE_STORAGE_ACCOUNT_KEY], read. *)
Definition get_AZURE_STORAGE_ACCOUNT_KEY : Run json :=
  fun p => (Ok (AZURE_STORAGE_ACCOUNT_KEY (world p)), p).

Definition ensure_container_exists (blob_service_client : BlobServiceClient)
    (container_name : pystr) : Run ContainerClient :=
  in_world (print_info (py "Checking container '" ++ container_name ++ py "'.")) ;;
  container_client <- evaluate (get_container_client blob_service_client container_name) ;;
  try_except
    (blob_sdk (CreateContainer container_client) (create_container container_client) ;;
     in_world (print_success (py "Created container '" ++ container_name ++ py "'.")))
    (fun e =>
     in_world (print_info (py "Container '" ++ container_name
                           ++ py "' likely exists or could not be created: " ++ exc_str e))) ;;
  ret container_client.

Definition upload_blob_and_generate_sas (blob_service_client : BlobServiceClient)
    (container_name blob_name : pystr) (data : list Byte.byte) (sas_expiry_hours : Z) : Run pystr :=
  in_world (print_info (py "Uploading blob '" ++ blob_name ++ py "' to container '"
                        ++ container_name ++ py "'.")) ;;
  container_client <- ensure_container_exists blob_service_client container_name ;;
  blob_client <- evaluate (get_blob_client container_client blob_name) ;;
  blob_sdk (UploadBlob blob_client data true) (upload_blob blob_client data true) ;;
  in_world (print_success (py "Uploaded blob '" ++ blob_name ++ py "' to container '"
                           ++ container_name ++ py "'.")) ;;
  in_world (print_info (py "SAS URL generating for blob '" ++ blob_name ++ py "'.")) ;;
  let permission := {| read := true |} in
  t <- datetime_utcnow ;;
  expiry <- evaluate (plus_hours t sas_expiry_hours) ;;
  account_key <- get_AZURE_STORAGE_ACCOUNT_KEY ;;
  sas_token <- blob_sdk (GenerateBlobSas (account_name blob_service_client) container_name
                           blob_name permission expiry account_key)
                        (generate_blob_sas (account_name blob_service_client) container_name
                           blob_name permission expiry account_key) ;;
  let blob_url := py "https://" ++ account_name blob_service_client
                  ++ py ".blob.core.windows.net/" ++ container_name ++ py "/" ++ blob_name in
  let blob_url_with_sas := blob_url ++ py "?" ++ sas_token in
  in_world (print_success (py "SAS URL generated for blob '" ++ blob_name ++ py "'.")) ;;
  ret blob_url_with_sas.

(** The default of [sas_expiry_hours]. *)
Definition default_sas_expiry_hours : Z := 1.

End Helper.

(** The signature call. *)
Definition is_generate_sas (c : BlobCall) : bool :=
  match c with
  | GenerateBlobSas _ _ _ _ _ _ => true
  | _ => false
  end.

End BlobHelper.

(** * Reading a record of calls *)

Module Traces.
Import CreateDb.

(** The calls on the search side: the cognitive account and its index. *)
Definition is_search_side (c : Call) : bool :=
  match c with
  | AccountsGet _ _ _ | AccountsBeginCreate _ _ _ _ | AccountsListKeys _ _ _
  | NewSearchIndexClient _ _ | CreateOrUpdateIndex _ _ => true
  | _ => false
  end.

Definition is_storage_list_keys (c : Call) : bool :=
  match c with
  | StorageListKeys _ _ _ => true
  | _ => false
  end.

(** Every search-side call of [cs] comes after a listing of storage keys;
    [seen] says whether one came before [cs]. *)
Fixpoint search_after_keys (seen : bool) (cs : list Call) : bool :=
  match cs with
  | [] => true
  | c :: cs' =>
      if is_storage_list_keys c then search_after_keys true cs'
      else if is_search_side c then seen && search_after_keys seen cs'
      else search_after_keys seen cs'
  end.

(** The call that reads the keys of a cognitive account. *)
Definition is_accounts_list_keys (c : Call) : bool :=
  match c with
  | AccountsListKeys _ _ _ => true
  | _ => false
  end.

(** [e] is an exception some call to the provider raises. *)
Definition raised_by_provider {S : Type} `{Azure S} (e : exn) : Prop :=
  (exists s, fst (new_credential s) = Raise e)
  \/ (exists c sub s, fst (new_storage_client c sub s) = Raise e)
  \/ (exists c sub s, fst (new_cog_client c sub s) = Raise e)
  \/ (exists c rg n s, fst (storage_get_properties c rg n s) = Raise e)
  \/ (exists c rg n p s, fst (storage_begin_create c rg n p s) = Raise e)
  \/ (exists c rg n s, fst (storage_list_keys c rg n s) = Raise e)
  \/ (exists c rg n s, fst (accounts_get c rg n s) = Raise e)
  \/ (exists c rg n p s, fst (accounts_begin_create c rg n p s) = Raise e)
  \/ (exists c rg n s, fst (accounts_list_keys c rg n s) = Raise e)
  \/ (exists p s, fst (poller_result p s) = Raise e)
  \/ (exists endpoint k s, fst (new_search_index_client endpoint k s) = Raise e)
  \/ (exists c index s, fst (create_or_update_index c index s) = Raise e).

(** The parameters the storage step creates an account with. *)
Definition storage_parameters (location : pystr) : StorageAccountCreateParameters :=
  {| sku := py "Standard_LRS"; storage_kind := py "StorageV2";
     storage_location := location; enable_https_traffic_only := true |}.

(** The parameters the search step creates an account with. *)
Definition cognitive_parameters (location : pystr) : CognitiveServicesAccountCreateParameters :=
  {| cog_location := location; cog_sku := py "S1"; cog_kind := py "Search" |}.

(** The storage account [n] is there at [s']: the probe at [s] returned, or
    it raised and the creation that followed completed. *)
Definition storage_account_ready {S : Type} `{Azure S} (c : StorageManagementClient)
    (rg : option pystr) (n location : pystr) (s s' : S) : Prop :=
  storage_get_properties c rg n s = (Ok tt, s')
  \/ exists e sa poller sb,
       storage_get_properties c rg n s = (Raise e, sa)
       /\ storage_begin_create c rg n (storage_parameters location) sa = (Ok poller, sb)
       /\ poller_result poller sb = (Ok tt, s').

(** The same for the cognitive account [n]. *)
Definition search_account_ready {S : Type} `{Azure S} (c : CognitiveServicesManagementClient)
    (rg : option pystr) (n location : pystr) (s s' : S) : Prop :=
  accounts_get c rg n s = (Ok tt, s')
  \/ exists e sa poller sb,
       accounts_get c rg n s = (Raise e, sa)
       /\ accounts_begin_create c rg n (cognitive_parameters location) sa = (Ok poller, sb)
       /\ poller_result poller sb = (Ok tt, s').

(** The run behind the response [r] of a process started in [w]: every call
    returned, in program order, each from the state the one before it left;
    [r] carries what they returned, [storage_key] is the first key listed
    and [final] the state the provider is left in. *)
Definition successful_run {S : Type} `{Azure S} (environ : gmap pystr pystr) (w : World S)
    (r : HttpResponse) (storage_key : pystr) (final : S) : Prop :=
  let subscription_id := environ !! py "AZURE_SUBSCRIPTION_ID" in
  let resource_group := environ !! py "AZURE_RESOURCE_GROUP" in
  let location := default (py "eastus") (environ !! py "AZURE_LOCATION") in
  let storage_account_base := default (py "mystorageacct") (environ !! py "STORAGE_ACCOUNT_BASE") in
  let search_account_base := default (py "mysearchacct") (environ !! py "SEARCH_ACCOUNT_BASE") in
  let index_name := default (py "rag-vector-index") (environ !! py "SEARCH_INDEX_NAME") in
  exists credential storage_client cog_client s1 s2 s3 (t : Z) s4 s5 keys s6 (t' : Z) s7 s8
         primary_key s9 search_client s10,
    let storage_account_name := storage_account_base ++ Str.of_int (t mod 10000) in
    let search_account_name := search_account_base ++ Str.of_int (t' mod 10000) in
    let endpoint := py "https://" ++ search_account_name ++ py ".search.windows.net" in
    new_credential (azure w) = (Ok credential, s1)
    /\ new_storage_client credential subscription_id s1 = (Ok storage_client, s2)
    /\ new_cog_client credential subscription_id s2 = (Ok cog_client, s3)
    /\ time_time s3 = (t, s4)
    /\ storage_account_ready storage_client resource_group storage_account_name location s4 s5
    /\ storage_list_keys storage_client resource_group storage_account_name s5
       = (Ok (storage_key :: keys), s6)
    /\ time_time s6 = (t', s7)
    /\ search_account_ready cog_client resource_group search_account_name location s7 s8
    /\ accounts_list_keys cog_client resource_group search_account_name s8 = (Ok primary_key, s9)
    /\ new_search_index_client endpoint primary_key s9 = (Ok search_client, s10)
    /\ create_or_update_index search_client
         {| index_name_ := index_name; fields := the_fields; vector_search := the_vector_search |}
         s10 = (Ok tt, final)
    /\ r = {| resp_body :=
                JsonDumps
                  (JObj [ (py "storage",
                           JObj [ (py "AZURE_STORAGE_URL",
                                   JStr (py "https://" ++ storage_account_name
                                         ++ py ".blob.core.windows.net"));
                                  (py "AZURE_STORAGE_NAME", JStr storage_account_name);
                                  (py "AZURE_STORAGE_KEY", JStr storage_key) ]);
                          (py "vector_search",
                           JObj [ (py "search_endpoint", JStr endpoint);
                                  (py "search_admin_key",
                                   match primary_key with Some k => JStr k | None => JNull end);
                                  (py "index_name", JStr index_name) ]) ])
                  None;
              mimetype := Some (py "application/json");
              status_code := 200 |}.

End Traces.

(** * A reference blob service

    Containers and blobs by name: creating a container that exists raises,
    uploading needs the container and replaces a blob when [overwrite] is
    set, and a signature needs a non-empty account key. *)

Module SimBlob.
Import CreateDb BlobHelper.

Record Store := mkStore {
  containers : gset (pystr * pystr);
  objects : gmap (pystr * pystr * pystr) (list Byte.byte);
  clock : datetime
}.

Definition ResourceExistsError (what : pystr) : exn :=
  Exn (py "ResourceExistsError") (py "The specified " ++ what ++ py " already exists.").

Definition ContainerNotFound : exn :=
  Exn (py "ResourceNotFoundError") (py "The specified container does not exist.").

Definition NoAccountKey : exn :=
  Exn (py "ValueError") (py "Either user_delegation_key or account_key must be provided.").

Definition container_id (c : ContainerClient) : pystr * pystr :=
  (account_name (container_service c), container_name c).

Definition blob_id (b : BlobClient) : pystr * pystr * pystr :=
  (container_id (blob_container b), blob_name b).

Definition sim_create_container (c : ContainerClient) (st : Store) : result unit * Store :=
  if bool_decide (container_id c ∈ containers st)
  then (Raise (ResourceExistsError (py "container")), st)
  else (Ok tt, mkStore ({[ container_id c ]} ∪ containers st) (objects st) (clock st)).

Definition sim_upload_blob (b : BlobClient) (data : list Byte.byte) (overwrite : bool) (st : Store)
    : result unit * Store :=
  if bool_decide (container_id (blob_container b) ∈ containers st) then
    match objects st !! blob_id b with
    | Some _ =>
        if overwrite
        then (Ok tt, mkStore (containers st) (<[blob_id b := data]> (objects st)) (clock st))
        else (Raise (ResourceExistsError (py "blob")), st)
    | None => (Ok tt, mkStore (containers st) (<[blob_id b := data]> (objects st)) (clock st))
    end
  else (Raise ContainerNotFound, st).

(** A stand-in for the signed query string. *)
Definition sim_generate_blob_sas (account container blob : pystr) (permission : BlobSasPermissions)
    (expiry : datetime) (account_key : json) (st : Store) : result pystr * Store :=
  match account_key with
  | JStr k =>
      if Str.truthy k
      then (Ok (py "se=" ++ Str.of_int expiry ++ py "&sp=" ++ (if read permission then py "r" else [])
                ++ py "&sig=" ++ k), st)
      else (Raise NoAccountKey, st)
  | _ => (Raise NoAccountKey, st)
  end.

(** The SDK refuses an empty name. *)
Definition sim_get_container_client (service : BlobServiceClient) (name : pystr)
    : result ContainerClient :=
  if Str.truthy name
  then Ok {| container_service := service; container_name := name |}
  else Raise (Exn (py "ValueError") (py "Please specify a container name.")).

Definition sim_get_blob_client (c : ContainerClient) (name : pystr) : result BlobClient :=
  if Str.truthy name
  then Ok {| blob_container := c; blob_name := name |}
  else Raise (Exn (py "ValueError") (py "Please specify a container name and blob name.")).

#[export] Instance sim_blob : BlobStorage Store := {|
  get_container_client := sim_get_container_client;
  get_blob_client := sim_get_blob_client;
  create_container := sim_create_container;
  upload_blob := sim_upload_blob;
  generate_blob_sas := sim_generate_blob_sas;
  utcnow st := (clock st, st);
  plus_hours t h := Ok (t + h * 3600000000)
|}.

(** A service with nothing in it. *)
Definition empty_store (t : datetime) : Store := mkStore ∅ ∅ t.


(** A process that has not provisioned anything yet, and one whose module
    global holds the key "k1". *)
Definition fresh_process (st : Store) : Process SimAzure.Sim Store :=
  mkProcess (SimAzure.boot SimAzure.stocked) st [].

Definition keyed_process (st : Store) : Process SimAzure.Sim Store :=
  mkProcess (mkWorld SimAzure.stocked [] [] (JStr (py "k1"))) st [].

End SimBlob.


(** * More sample inputs *)

(** A provider on which every call returns, and whose accounts have no
    keys at all. *)

Module KeylessAzure.
Import CreateDb.

#[export] Instance keyless_azure : Azure unit := {|
  new_credential s := (Ok Build_DefaultAzureCredential, s);
  new_storage_client cred sub s :=
    (Ok {| storage_credential := cred; storage_subscription_id := sub |}, s);
  new_cog_client cred sub s :=
    (Ok {| cog_credential := cred; cog_subscription_id := sub |}, s);
  storage_get_properties _ _ _ s := (Ok tt, s);
  storage_begin_create _ rg n _ s := (Ok (StoragePoller rg n), s);
  storage_list_keys _ _ _ s := (Ok [], s);
  accounts_get _ _ _ s := (Ok tt, s);
  accounts_begin_create _ rg n _ s := (Ok (CognitivePoller rg n), s);
  accounts_list_keys _ _ _ s := (Ok None, s);
  poller_result _ s := (Ok tt, s);
  new_search_index_client endpoint cred s :=
    (Ok {| client_endpoint := endpoint; client_credential := cred |}, s);
  create_or_update_index _ _ s := (Ok tt, s);
  time_time s := (1700001234, s)
|}.

Definition boot : World unit := mkWorld tt [] [] JNull.

End KeylessAzure.

Module Samples.
Import ListDb.

(** The owner of [sample_row], twice: the later row has no name. *)
Definition owner_rows : list UserRow :=
  [ {| u_id := SqlStr (py "u-9"); u_name := SqlStr (py "Old Name") |};
    {| u_id := SqlStr (py "u-9"); u_name := SqlNull |};
    {| u_id := SqlStr (py "u-1"); u_name := SqlStr (py "Ann") |} ].

(** Rows of "db-1" between rows of another database. *)
Definition mixed_contributors : list ContributorRow :=
  [ {| c_database_id := SqlStr (py "db-1"); c_user_id := SqlStr (py "u-2");
       c_name := SqlStr (py "Bo") |};
    {| c_database_id := SqlStr (py "db-2"); c_user_id := SqlStr (py "u-1");
       c_name := SqlStr (py "Ann") |};
    {| c_database_id := SqlStr (py "db-1"); c_user_id := SqlStr (py "u-1");
       c_name := SqlStr (py "Ann") |} ].

Definition mixed_tags : list TagRow :=
  [ (SqlStr (py "db-1"), SqlStr (py "ml")); (SqlStr (py "db-2"), SqlStr (py "nlp"));
    (SqlStr (py "db-1"), SqlStr (py "rag")) ].

Definition mixed_store : MySQL :=
  store [sample_row] owner_rows mixed_contributors [] mixed_tags.

(** The blob client of account "acct". *)
Definition acct_client : BlobHelper.BlobServiceClient := {| BlobHelper.account_name := py "acct" |}.

End Samples.

(** * Properties *)

(** ** Strings and the name stem *)

Section StrFacts.

Lemma py_example : py "a0Z" = [97; 48; 90]%N.
Proof. reflexivity. Qed.

Lemma of_int_example : Str.of_int 1234 = py "1234" /\ Str.of_int 0 = py "0".
Proof. split; reflexivity. Qed.

Lemma strip_example :
  Str.strip [32; 9; 160; 8195; 10]%N = [] /\ Str.strip (py "  a b ") = py "a b".
Proof. split; reflexivity. Qed.

Lemma re_sub_non_alnum_class (s : pystr) :
  Forall (fun c => Str.is_lower_alnum c = true) (Str.re_sub_non_alnum s).
Proof.
  unfold Str.re_sub_non_alnum.
  induction s as [|c s IH]; simpl; [constructor|].
  destruct (Str.is_lower_alnum c) eqn:Hc; auto.
Qed.

Lemma slice_to_length (n : nat) (s : pystr) : (length (Str.slice_to n s) <= n)%nat.
Proof. unfold Str.slice_to. rewrite length_firstn. lia. Qed.

Lemma slice_to_Forall (P : codepoint -> Prop) (n : nat) (s : pystr) :
  Forall P s -> Forall P (Str.slice_to n s).
Proof. unfold Str.slice_to. apply Forall_take. Qed.

(** Blank text: [strip] leaves nothing exactly when every character is
    whitespace. *)
Lemma lstrip_spaces (s : pystr) :
  forallb Str.isspace s = true -> Str.lstrip s = [].
Proof.
  induction s as [|c s IH]; simpl; [done|].
  intros [Hc Hs]%andb_prop. rewrite Hc. auto.
Qed.

End StrFacts.

(** C2: for every title the sanitization step gives a stem made of
    characters of [a-z0-9] only and of length at most 20, whatever the
    interpreter's case tables do outside ASCII; the title "My Docs! 2024"
    gives "mydocs2024". *)
Theorem sanitize_stem_alnum_bounded (unicode_lower : pystr -> pystr) (title : pystr) :
  Forall (fun c => Str.is_lower_alnum c = true) (CreateDb.sanitize (Str.lower unicode_lower title))
  /\ (length (CreateDb.sanitize (Str.lower unicode_lower title)) <= 20)%nat
  /\ CreateDb.sanitize (Str.lower unicode_lower (py "My Docs! 2024")) = py "mydocs2024".
Proof.
  unfold CreateDb.sanitize. split; [|split].
  - apply slice_to_Forall, re_sub_non_alnum_class.
  - apply slice_to_length.
  - reflexivity.
Qed.

(** ** The catalog lister *)

Module ListDbFacts.
Import ListDb.

(** One driver call of [main]: it returns, or the handler answers with the
    text of what it raised. *)
Ltac driver_call r :=
  let e := fresh "e" in
  let E := fresh "E" in
  destruct r as [? | e] eqn:E; simpl;
  [ repeat match goal with u : unit |- _ => destruct u end
  | left; exists e; split; [unfold driver_raises; tauto | reflexivity] ].

(** The two ways a request ends: the first exception of the driver turned
    into a text response, or the whole catalog. *)
Lemma main_cases (mysql : MySQL) (w : list LogRecord) :
  (exists e, driver_raises mysql e
     /\ fst (main mysql w) = Ok (text_response (py "Error: " ++ exc_str e) 500))
  \/ (exists dbs us cs fs ts, answers mysql dbs us cs fs ts
     /\ fst (main mysql w) =
        Ok {| resp_body :=
                JsonDumps (JObj [ (py "databases",
                   JArr (catalog_entry (users_dict us) (group_contributors cs)
                           (group_files fs) (group_tags ts) <$> dbs)) ]) (Some 2);
              mimetype := Some (py "application/json");
              status_code := 200 |}).
Proof.
  unfold main, try_except, bind, driver, logger_info, logger_error, ret. simpl.
  driver_call (get_mysql_connection mysql).
  driver_call (cursor_dictionary mysql).
  driver_call (query_databases mysql).
  driver_call (query_users mysql).
  driver_call (query_contributors mysql).
  driver_call (query_files mysql).
  driver_call (cursor_plain mysql).
  driver_call (query_tags mysql).
  driver_call (cursor_close mysql).
  driver_call (cursor_close_again mysql).
  driver_call (conn_close mysql).
  right. eexists _, _, _, _, _. split; [|reflexivity].
  unfold answers. tauto.
Qed.

(** Grouping rows by key with [setdefault(...).append(...)]: what is under a
    key is what the rows of that key give, in row order. *)
Lemma get_list_setdefault_append {V} (m : gmap sqlval (list V)) (k k' : sqlval) (x : V) :
  get_list (setdefault_append m k x) k' =
  get_list m k' ++ (if decide (k = k') then [x] else []).
Proof.
  unfold get_list, setdefault_append. destruct (decide (k = k')) as [->|Hne].
  - by rewrite lookup_insert_eq.
  - rewrite lookup_insert_ne by done. by rewrite app_nil_r.
Qed.

Lemma get_list_grouped {A V} (f : gmap sqlval (list V) -> A -> gmap sqlval (list V))
    (key : A -> sqlval) (val : A -> V) (rows : list A) (m : gmap sqlval (list V)) (k : sqlval) :
  (forall m r, f m r = setdefault_append m (key r) (val r)) ->
  get_list (foldl f m rows) k =
  get_list m k ++ (val <$> filter (fun r => key r = k) rows).
Proof.
  intros Hf. revert m. induction rows as [|r rows IH]; intros m; simpl.
  - by rewrite app_nil_r.
  - rewrite IH, Hf, get_list_setdefault_append, filter_cons.
    destruct (decide (key r = k)); simpl; by rewrite <- ?app_assoc, ?app_nil_r.
Qed.

Lemma filter_none {A} (P : A -> Prop) `{forall x, Decision (P x)} (l : list A) :
  (forall x, x ∈ l -> ~ P x) -> filter P l = [].
Proof.
  induction l as [|x l IH]; intros Hl; [done|].
  rewrite filter_cons_False; [|apply Hl; left].
  apply IH. intros y Hy. apply Hl. by right.
Qed.

Lemma group_contributors_unmatched (cs : list ContributorRow) (k : sqlval) :
  (forall c, c ∈ cs -> c_database_id c <> k) -> get_list (group_contributors cs) k = [].
Proof.
  intros Hno. unfold group_contributors.
  rewrite (get_list_grouped _ c_database_id contributor_entry) by done.
  rewrite filter_none by done. done.
Qed.

Lemma group_files_unmatched (fs : list FileRow) (k : sqlval) :
  (forall f, f ∈ fs -> f_database_id f <> k) -> get_list (group_files fs) k = [].
Proof.
  intros Hno. unfold group_files.
  rewrite (get_list_grouped _ f_database_id file_entry) by done.
  rewrite filter_none by done. done.
Qed.

Lemma group_tags_unmatched (ts : list TagRow) (k : sqlval) :
  (forall t, t ∈ ts -> fst t <> k) -> get_list (group_tags ts) k = [].
Proof.
  intros Hno. unfold group_tags.
  rewrite (get_list_grouped _ fst (fun t => to_json (snd t))) by (by intros m []).
  rewrite filter_none by done. done.
Qed.

Lemma users_dict_lookup (us : list UserRow) (m : gmap sqlval sqlval) (k : sqlval) :
  (forall u, u ∈ us -> u_id u <> k) ->
  foldl (fun m u => <[u_id u := u_name u]> m) m us !! k = m !! k.
Proof.
  revert m. induction us as [|u us IH]; intros m Hno; simpl; [done|].
  rewrite IH by (intros; apply Hno; by right).
  apply lookup_insert_ne, Hno. left.
Qed.

Lemma users_dict_unmatched (us : list UserRow) (k : sqlval) :
  (forall u, u ∈ us -> u_id u <> k) -> users_dict us !! k = None.
Proof. intros Hno. unfold users_dict. by rewrite users_dict_lookup. Qed.

(** The response to a failing request is built from the first exception of
    the driver and from nothing else. *)
Lemma main_first_error (mysql : MySQL) (w : list LogRecord) (e : exn) :
  first_error mysql = Some e ->
  fst (main mysql w) = Ok (text_response (py "Error: " ++ exc_str e) 500).
Proof.
  unfold first_error, errors, main, try_except, bind, driver, logger_info, logger_error, ret.
  destruct (get_mysql_connection mysql); simpl; [|congruence].
  destruct (cursor_dictionary mysql); simpl; [|congruence].
  destruct (query_databases mysql); simpl; [|congruence].
  destruct (query_users mysql); simpl; [|congruence].
  destruct (query_contributors mysql); simpl; [|congruence].
  destruct (query_files mysql); simpl; [|congruence].
  destruct (cursor_plain mysql); simpl; [|congruence].
  destruct (query_tags mysql); simpl; [|congruence].
  destruct (cursor_close mysql); simpl; [|congruence].
  destruct (cursor_close_again mysql); simpl; [|congruence].
  destruct (conn_close mysql); simpl; [|congruence].
  discriminate.
Qed.

Lemma query_fails_first_error (mysql : MySQL) :
  query_fails mysql -> exists e, first_error mysql = Some e.
Proof.
  unfold query_fails, first_error, errors.
  intros Hq.
  destruct (get_mysql_connection mysql); simpl; [|eauto].
  destruct (cursor_dictionary mysql); simpl; [|eauto].
  destruct (query_databases mysql); simpl; [|eauto].
  destruct (query_users mysql); simpl; [|eauto].
  destruct (query_contributors mysql); simpl; [|eauto].
  destruct (query_files mysql); simpl; [|eauto].
  destruct (cursor_plain mysql); simpl; [|eauto].
  destruct (query_tags mysql); simpl; [|eauto].
  exfalso. destruct Hq as [[? ?]|[[? ?]|[[? ?]|[[? ?]|[? ?]]]]]; discriminate.
Qed.

Lemma answers_no_raise (mysql : MySQL) dbs us cs fs ts (e : exn) :
  answers mysql dbs us cs fs ts -> driver_raises mysql e -> False.
Proof.
  unfold answers, driver_raises. intros H1 H2.
  repeat match goal with
         | H : _ /\ _ |- _ => destruct H
         | H : _ \/ _ |- _ => destruct H
         end; congruence.
Qed.

Lemma answers_not_failing (mysql : MySQL) dbs us cs fs ts :
  answers mysql dbs us cs fs ts -> query_fails mysql -> False.
Proof.
  unfold answers, query_fails. intros H1 H2.
  repeat match goal with
         | H : _ /\ _ |- _ => destruct H
         | H : _ \/ _ |- _ => destruct H
         | H : exists _, _ |- _ => destruct H
         end; congruence.
Qed.

Lemma answers_functional (mysql : MySQL) dbs us cs fs ts dbs' us' cs' fs' ts' :
  answers mysql dbs us cs fs ts -> answers mysql dbs' us' cs' fs' ts' ->
  dbs = dbs' /\ us = us' /\ cs = cs' /\ fs = fs' /\ ts = ts'.
Proof.
  unfold answers. intros H1 H2.
  repeat match goal with H : _ /\ _ |- _ => destruct H end.
  repeat split; congruence.
Qed.

(** What a catalog entry holds under the keys the properties speak of. *)
Lemma catalog_entry_fields users cm fm tm (db : DatabaseRow) :
  Py.field (py "contributors") (catalog_entry users cm fm tm db) = Some (JArr (get_list cm (id db)))
  /\ Py.field (py "files") (catalog_entry users cm fm tm db) = Some (JArr (get_list fm (id db)))
  /\ Py.field (py "tags") (catalog_entry users cm fm tm db) = Some (JArr (get_list tm (id db)))
  /\ Py.field (py "owner") (catalog_entry users cm fm tm db) =
     Some (JObj [ (py "id", to_json (owner_id db));
                  (py "name", default (JStr (py "Unknown")) (to_json <$> users !! owner_id db)) ])
  /\ Py.field (py "isSelected") (catalog_entry users cm fm tm db) = Some (JBool false).
Proof. repeat split; reflexivity. Qed.

(** C7: when every driver call returns, the request succeeds with one
    entry per database row, and in the entry of a row: no contributor row of
    its id gives an empty list under "contributors", no file row an empty
    list under "files", no tag row an empty list under "tags", and no user
    row of its [owner_id] gives the owner name "Unknown". *)
Theorem unmatched_row_defaults (mysql : MySQL) (w : list LogRecord)
    (dbs : list DatabaseRow) (us : list UserRow) (cs : list ContributorRow)
    (fs : list FileRow) (ts : list TagRow) (i : nat) (db : DatabaseRow) :
  answers mysql dbs us cs fs ts ->
  dbs !! i = Some db ->
  exists entries entry,
    fst (main mysql w) =
      Ok {| resp_body := JsonDumps (JObj [ (py "databases", JArr entries) ]) (Some 2);
            mimetype := Some (py "application/json");
            status_code := 200 |}
    /\ length entries = length dbs
    /\ entries !! i = Some entry
    /\ ((forall c, c ∈ cs -> c_database_id c <> id db) ->
        Py.field (py "contributors") entry = Some (JArr []))
    /\ ((forall f, f ∈ fs -> f_database_id f <> id db) ->
        Py.field (py "files") entry = Some (JArr []))
    /\ ((forall t, t ∈ ts -> fst t <> id db) ->
        Py.field (py "tags") entry = Some (JArr []))
    /\ ((forall u, u ∈ us -> u_id u <> owner_id db) ->
        Py.field (py "owner") entry =
        Some (JObj [ (py "id", to_json (owner_id db)); (py "name", JStr (py "Unknown")) ])).
Proof.
  intros Hans Hi.
  destruct (main_cases mysql w) as [(e & He & _) | (dbs' & us' & cs' & fs' & ts' & Hans' & Hmain)].
  { destruct (answers_no_raise _ _ _ _ _ _ _ Hans He). }
  destruct (answers_functional _ _ _ _ _ _ _ _ _ _ _ Hans Hans') as (<- & <- & <- & <- & <-).
  destruct (catalog_entry_fields (users_dict us) (group_contributors cs)
              (group_files fs) (group_tags ts) db) as (Fc & Ff & Ft & Fo & _).
  eexists _, _. split; [exact Hmain|].
  split; [apply length_fmap|].
  split; [by rewrite list_lookup_fmap, Hi|].
  repeat split; intros Hno.
  - by rewrite Fc, group_contributors_unmatched.
  - by rewrite Ff, group_files_unmatched.
  - by rewrite Ft, group_tags_unmatched.
  - by rewrite Fo, users_dict_unmatched.
Qed.

Lemma unmatched_row_defaults_witness :
  answers sample_store [sample_row] sample_users sample_contributors sample_files sample_tags
  /\ exists entry,
       fst (main sample_store []) =
         Ok {| resp_body := JsonDumps (JObj [ (py "databases", JArr [entry]) ]) (Some 2);
               mimetype := Some (py "application/json");
               status_code := 200 |}
       /\ Py.field (py "contributors") entry = Some (JArr [])
       /\ Py.field (py "files") entry = Some (JArr [])
       /\ Py.field (py "tags") entry = Some (JArr [])
       /\ Py.field (py "owner") entry =
          Some (JObj [ (py "id", JStr (py "u-9")); (py "name", JStr (py "Unknown")) ]).
Proof.
  assert (Hans : answers sample_store [sample_row] sample_users sample_contributors
                   sample_files sample_tags) by (unfold answers; repeat split).
  split; [exact Hans|].
  destruct (unmatched_row_defaults sample_store [] _ _ _ _ _ 0%nat sample_row Hans eq_refl)
    as (entries & entry & Hmain & Hlen & Hentry & Hc & Hf & Ht & Ho).
  destruct entries as [|entry' [|? ?]]; try discriminate Hlen.
  injection Hentry as ->.
  exists entry. split; [exact Hmain|].
  split; [apply Hc; intros c ->%list_elem_of_singleton; discriminate|].
  split; [apply Hf; intros c ->%list_elem_of_singleton; discriminate|].
  split; [apply Ht; intros c ->%list_elem_of_singleton; discriminate|].
  apply Ho; intros c ->%list_elem_of_singleton; discriminate.
Defined.

(** C8: when one of the lister's queries raises, the call ends with status
    500 and a text body made of "Error: " and the text of an exception of
    the driver; the response is that of any request with the same
    exceptions, whatever rows the other queries returned. *)
Theorem query_failure_aborts (mysql : MySQL) (w : list LogRecord) :
  query_fails mysql ->
  (exists e, driver_raises mysql e
     /\ fst (main mysql w) =
        Ok {| resp_body := Text (py "Error: " ++ exc_str e);
              mimetype := None;
              status_code := 500 |})
  /\ (forall mysql', errors mysql' = errors mysql -> fst (main mysql' w) = fst (main mysql w)).
Proof.
  intros Hq. split.
  - destruct (main_cases mysql w) as [(e & He & Hmain) | (dbs & us & cs & fs & ts & Hans & _)].
    + exists e. split; [exact He|exact Hmain].
    + destruct (answers_not_failing _ _ _ _ _ _ Hans Hq).
  - intros mysql' Herr.
    destruct (query_fails_first_error mysql Hq) as [e He].
    rewrite (main_first_error mysql w e He).
    apply main_first_error. unfold first_error. rewrite Herr. exact He.
Qed.

Lemma query_failure_aborts_witness :
  query_fails (store_failing_contributors [sample_row] sample_users
                 (OperationalError (py "2013: Lost connection")))
  /\ fst (main (store_failing_contributors [sample_row] sample_users
                  (OperationalError (py "2013: Lost connection"))) []) =
     Ok {| resp_body := Text (py "Error: 2013: Lost connection");
           mimetype := None;
           status_code := 500 |}
  /\ fst (main (store_failing_contributors [] []
                  (OperationalError (py "2013: Lost connection"))) []) =
     fst (main (store_failing_contributors [sample_row] sample_users
                  (OperationalError (py "2013: Lost connection"))) []).
Proof.
  assert (Hq : query_fails (store_failing_contributors [sample_row] sample_users
                              (OperationalError (py "2013: Lost connection")))).
  { unfold query_fails. right. right. left. eexists. reflexivity. }
  split; [exact Hq|].
  destruct (query_failure_aborts _ [] Hq) as [_ Hsame].
  split; [reflexivity|].
  apply Hsame. reflexivity.
Defined.



End ListDbFacts.

(** ** The handler monad *)

Section MonadFacts.

Context {W : Type}.

Lemma bind_Ok_inv {A B} (m : M W A) (k : A -> M W B) (w w' : W) (b : B) :
  bind m k w = (Ok b, w') -> exists a w1, m w = (Ok a, w1) /\ k a w1 = (Ok b, w').
Proof.
  unfold bind. destruct (m w) as [[a|e] w1]; [eauto|discriminate].
Qed.

Lemma try_except_Ok_inv {A} (m : M W A) (h : exn -> M W A) (w w' : W) (a : A) :
  try_except m h w = (Ok a, w') ->
  m w = (Ok a, w') \/ exists e w1, m w = (Raise e, w1) /\ h e w1 = (Ok a, w').
Proof.
  unfold try_except. destruct (m w) as [[a'|e] w1]; [by left|eauto].
Qed.

Lemma ret_Ok_inv {A} (a b : A) (w w' : W) : ret a w = (Ok b, w') -> a = b.
Proof. unfold ret. congruence. Qed.

Lemma Ok_inj {A} (a b : A) : Ok a = Ok b -> a = b.
Proof. by intros [= ->]. Qed.

End MonadFacts.

(** ** The provisioner *)

Module CreateDbFacts.
Import CreateDb Traces.

Arguments py : simpl never.
Arguments Str.strip : simpl never.
Arguments Str.lower : simpl never.
Arguments Str.of_int : simpl never.

(** One call to the provider: it returns or raises. *)
Ltac provider_call op :=
  let r := fresh "r" in
  let s := fresh "s" in
  let E := fresh "E" in
  destruct op as [r s] eqn:E; destruct r; cbn.

(** The next call of a provisioning step, in program order. *)
Ltac sdk_step :=
  match goal with
  | |- context [storage_get_properties ?a ?b ?c ?s] => provider_call (storage_get_properties a b c s)
  | |- context [storage_begin_create ?a ?b ?c ?d ?s] => provider_call (storage_begin_create a b c d s)
  | |- context [storage_list_keys ?a ?b ?c ?s] => provider_call (storage_list_keys a b c s)
  | |- context [accounts_get ?a ?b ?c ?s] => provider_call (accounts_get a b c s)
  | |- context [accounts_begin_create ?a ?b ?c ?d ?s] => provider_call (accounts_begin_create a b c d s)
  | |- context [accounts_list_keys ?a ?b ?c ?s] => provider_call (accounts_list_keys a b c s)
  | |- context [poller_result ?a ?s] => provider_call (poller_result a s)
  | |- context [new_search_index_client ?a ?b ?s] => provider_call (new_search_index_client a b s)
  | |- context [create_or_update_index ?a ?b ?s] => provider_call (create_or_update_index a b s)
  end.


Section Generic.

Context {S : Type} `{Azure S}.
Variable unicode_lower : pystr -> pystr.
Variable environ : gmap pystr pystr.

Lemma strip_nonblank_truthy (s : pystr) : Str.strip s <> [] -> Str.truthy s = true.
Proof. destruct s; [intros Hs; by destruct Hs|done]. Qed.

(** A JSON object whose title the validator refuses: 400, and the provider
    is never reached. *)
Lemma main_rejects_bad_title (items : list (pystr * json)) (w : World S) :
  title_ok (default JNull (Py.dict_lookup (py "title") items)) = false ->
  fst (main unicode_lower environ {| get_json := Some (JObj items) |} w) =
    Ok {| resp_body := Text (py "Missing or invalid 'title' in request body");
          mimetype := None;
          status_code := 400 |}
  /\ calls (snd (main unicode_lower environ {| get_json := Some (JObj items) |} w)) = calls w
  /\ azure (snd (main unicode_lower environ {| get_json := Some (JObj items) |} w)) = azure w.
Proof.
  unfold main, bind, logger_info, emit, Py.get, ret. cbn.
  destruct (default JNull (Py.dict_lookup (py "title") items)) as [| b | n | f | s | xs | kvs];
    cbn; intros Hbad.
  - done.
  - by destruct b.
  - by destruct (n =? 0).
  - by destruct (PrimFloat.eqb f PrimFloat.zero).
  - destruct s as [|c s]; [done|]. cbn. rewrite Hbad. done.
  - by destruct xs.
  - by destruct kvs.
Qed.

(** The validator lets a good title through to the configuration check. *)
Lemma main_accepts_title (items : list (pystr * json)) (title : pystr) (w : World S) :
  Py.dict_lookup (py "title") items = Some (JStr title) ->
  Str.strip title <> [] ->
  unset (environ !! py "AZURE_SUBSCRIPTION_ID") || unset (environ !! py "AZURE_RESOURCE_GROUP") = true ->
  fst (main unicode_lower environ {| get_json := Some (JObj items) |} w) =
    Ok {| resp_body :=
            Text (py "Missing required environment variables: AZURE_SUBSCRIPTION_ID or AZURE_RESOURCE_GROUP");
          mimetype := None;
          status_code := 500 |}
  /\ calls (snd (main unicode_lower environ {| get_json := Some (JObj items) |} w)) = calls w
  /\ azure (snd (main unicode_lower environ {| get_json := Some (JObj items) |} w)) = azure w.
Proof.
  intros Htitle Hstrip Henv.
  unfold main, bind, logger_info, emit, Py.get, ret. cbn.
  rewrite Htitle. cbn.
  rewrite (strip_nonblank_truthy title Hstrip). cbn.
  destruct (Str.strip title) as [|c s] eqn:Es; [done|]. cbn.
  rewrite Henv. done.
Qed.

(** C5: for a request with a valid title, when the subscription id or the
    resource group is absent from the environment the provisioner answers
    500 and makes no external call: no call is recorded and the provider's
    state is untouched. *)
Theorem main_missing_configuration (items : list (pystr * json)) (title : pystr) (w : World S) :
  Py.dict_lookup (py "title") items = Some (JStr title) ->
  Str.strip title <> [] ->
  environ !! py "AZURE_SUBSCRIPTION_ID" = None \/ environ !! py "AZURE_RESOURCE_GROUP" = None ->
  fst (main unicode_lower environ {| get_json := Some (JObj items) |} w) =
     Ok {| resp_body :=
             Text (py "Missing required environment variables: AZURE_SUBSCRIPTION_ID or AZURE_RESOURCE_GROUP");
           mimetype := None;
           status_code := 500 |}
  /\ calls (snd (main unicode_lower environ {| get_json := Some (JObj items) |} w)) = calls w
  /\ azure (snd (main unicode_lower environ {| get_json := Some (JObj items) |} w)) = azure w.
Proof.
  intros Htitle Hstrip Henv.
  assert (Hunset : unset (environ !! py "AZURE_SUBSCRIPTION_ID")
                   || unset (environ !! py "AZURE_RESOURCE_GROUP") = true).
  { destruct Henv as [-> | ->]; cbn; [done|apply orb_true_r]. }
  exact (main_accepts_title items title w Htitle Hstrip Hunset).
Qed.

(** C4, on the code: a body that is valid JSON but not an object (here the
    array [[]]) has no title, and the handler does not answer 400: the
    lookup of "title" raises [AttributeError] outside every [try], so the
    handler returns no response at all.  No external call is made. *)
Theorem main_body_not_object_raises (w : World S) :
  fst (main unicode_lower environ {| get_json := Some (JArr []) |} w) =
    Raise (Exn (py "AttributeError") (py "'list' object has no attribute 'get'"))
  /\ calls (snd (main unicode_lower environ {| get_json := Some (JArr []) |} w)) = calls w.
Proof. split; reflexivity. Qed.


(** The title of an accepted request plays no part in what the handler
    does next. *)
Lemma main_title_irrelevant (items1 items2 : list (pystr * json)) (t1 t2 : pystr) (w : World S) :
  Py.dict_lookup (py "title") items1 = Some (JStr t1) -> Str.strip t1 <> [] ->
  Py.dict_lookup (py "title") items2 = Some (JStr t2) -> Str.strip t2 <> [] ->
  main unicode_lower environ {| get_json := Some (JObj items1) |} w =
  main unicode_lower environ {| get_json := Some (JObj items2) |} w.
Proof.
  intros H1 S1 H2 S2.
  unfold main, bind, logger_info, emit, Py.get, ret. cbn.
  rewrite H1, H2. cbn.
  rewrite (strip_nonblank_truthy t1 S1), (strip_nonblank_truthy t2 S2). cbn.
  destruct (Str.strip t1) as [|c1 s1]; [done|].
  destruct (Str.strip t2) as [|c2 s2]; [done|].
  reflexivity.
Qed.

(** On any provider, a probe that returns keeps the step from creating. *)
Lemma storage_probe_short_circuits (client : StorageManagementClient) (rg : option pystr)
    (n loc : pystr) (w : World S) :
  fst (storage_get_properties client rg n (azure w)) = Ok tt ->
  exists new,
    calls (snd (create_storage_account client rg n loc w)) = calls w ++ new
    /\ Forall (fun c => is_creation c = false) new.
Proof.
  unfold create_storage_account, try_except, bind, print_info, print_success,
    print_error, logger_info, logger_error, emit, sdk, ret, raise, first_key_value. cbn.
  sdk_step; [|discriminate]. intros _.
  sdk_step.
  - match goal with |- context [match ?keys with [] => _ | _ :: _ => _ end] => destruct keys end;
      cbn; rewrite <- ?app_assoc; eexists; (split; [reflexivity|]); repeat constructor.
  - rewrite <- ?app_assoc; eexists; (split; [reflexivity|]); repeat constructor.
Qed.

Lemma search_probe_short_circuits (client : CognitiveServicesManagementClient)
    (rg : option pystr) (n loc idx : pystr) (admin_key : option pystr) (w : World S) :
  fst (accounts_get client rg n (azure w)) = Ok tt ->
  exists new,
    calls (snd (create_vector_database_and_index client rg n loc idx admin_key w)) = calls w ++ new
    /\ Forall (fun c => is_creation c = false) new.
Proof.
  unfold create_vector_database_and_index, try_except, bind, print_info, print_success,
    print_error, logger_info, logger_error, emit, sdk, ret, raise. cbn.
  sdk_step; [|discriminate]. intros _.
  destruct (no_key admin_key); cbn.
  all: repeat sdk_step.
  all: rewrite <- ?app_assoc; eexists; (split; [reflexivity|]); repeat constructor.
Qed.

(** Every response the handler returns: one of three fixed texts, the text
    of an exception behind "Error: ", or the JSON payload with status 200. *)
Lemma main_response_cases (req : HttpRequest) (w : World S) (r : HttpResponse) :
  fst (main unicode_lower environ req w) = Ok r ->
  r = text_response (py "Invalid JSON body") 400
  \/ r = text_response (py "Missing or invalid 'title' in request body") 400
  \/ r = text_response
           (py "Missing required environment variables: AZURE_SUBSCRIPTION_ID or AZURE_RESOURCE_GROUP")
           500
  \/ (exists e, r = text_response (py "Error: " ++ exc_str e) 500)
  \/ (exists payload,
        r = {| resp_body := JsonDumps payload None;
               mimetype := Some (py "application/json");
               status_code := 200 |}).
Proof.
  destruct (main unicode_lower environ req w) as [res w'] eqn:E. cbn. intros ->.
  unfold main in E.
  apply bind_Ok_inv in E as (? & ? & _ & E).
  destruct (get_json req) as [req_body|].
  2: { apply ret_Ok_inv in E. auto. }
  apply bind_Ok_inv in E as (title & ? & _ & E).
  apply bind_Ok_inv in E as (? & ? & _ & E).
  apply bind_Ok_inv in E as (? & ? & _ & E).
  apply bind_Ok_inv in E as (rejected & ? & _ & E).
  destruct rejected.
  { apply ret_Ok_inv in E. auto. }
  apply bind_Ok_inv in E as (? & ? & _ & E).
  cbn zeta in E.
  destruct (unset (environ !! py "AZURE_SUBSCRIPTION_ID")
            || unset (environ !! py "AZURE_RESOURCE_GROUP")).
  { apply ret_Ok_inv in E. auto. }
  apply try_except_Ok_inv in E as [E | (e & ? & _ & E)].
  - do 4 right.
    repeat (apply bind_Ok_inv in E as (? & ? & _ & E)).
    apply ret_Ok_inv in E. eauto.
  - apply bind_Ok_inv in E as (? & ? & _ & E).
    apply ret_Ok_inv in E. right. right. right. left. eauto.
Qed.

End Generic.

(** *** On the reference provider *)

Section Reference.

Import SimAzure.

Lemma storage_step_existing (client : StorageManagementClient) (rg : option pystr)
    (n loc : pystr) (w : World Sim) (acct : StorageAccount) :
  storage_accounts (azure w) !! (rg, n) = Some acct ->
  fst (create_storage_account client rg n loc w) =
    Ok (JObj [ (py "AZURE_STORAGE_URL", JStr (py "https://" ++ n ++ py ".blob.core.windows.net"));
               (py "AZURE_STORAGE_NAME", JStr n);
               (py "AZURE_STORAGE_KEY", JStr (key1 acct)) ])
  /\ azure (snd (create_storage_account client rg n loc w)) = azure w
  /\ calls (snd (create_storage_account client rg n loc w)) =
     calls w ++ [StorageGetProperties client rg n; StorageListKeys client rg n].
Proof.
  intros Hacct.
  unfold create_storage_account, try_except, bind, print_info, print_success,
    print_error, logger_info, logger_error, emit, sdk, ret, raise. cbn.
  unfold sim_storage_get_properties, sim_storage_list_keys. rewrite Hacct. cbn.
  rewrite Hacct. cbn. rewrite <- app_assoc. done.
Qed.

(** From any state the storage step returns, and leaves the account behind. *)
Lemma storage_step_any (client : StorageManagementClient) (rg : option pystr)
    (n loc : pystr) (w : World Sim) :
  exists acct,
    storage_accounts (azure (snd (create_storage_account client rg n loc w))) !! (rg, n) = Some acct
    /\ fst (create_storage_account client rg n loc w) =
       Ok (JObj [ (py "AZURE_STORAGE_URL", JStr (py "https://" ++ n ++ py ".blob.core.windows.net"));
                  (py "AZURE_STORAGE_NAME", JStr n);
                  (py "AZURE_STORAGE_KEY", JStr (key1 acct)) ]).
Proof.
  unfold create_storage_account, try_except, bind, print_info, print_success,
    print_error, logger_info, logger_error, emit, sdk, ret, raise. cbn.
  unfold sim_storage_get_properties, sim_storage_list_keys.
  destruct (storage_accounts (azure w) !! (rg, n)) eqn:E; cbn.
  - rewrite E. cbn. eauto.
  - rewrite lookup_insert_eq. cbn. rewrite lookup_insert_eq. eauto.
Qed.

Lemma search_step_existing (client : CognitiveServicesManagementClient) (rg : option pystr)
    (n loc idx : pystr) (admin_key : option pystr) (w : World Sim) (acct : CognitiveAccount) :
  cognitive_accounts (azure w) !! (rg, n) = Some acct ->
  fst (create_vector_database_and_index client rg n loc idx admin_key w) =
    Ok (JObj [ (py "search_endpoint", JStr (py "https://" ++ n ++ py ".search.windows.net"));
               (py "search_admin_key",
                match returned_key admin_key acct with Some k => JStr k | None => JNull end);
               (py "index_name", JStr idx) ])
  /\ azure (snd (create_vector_database_and_index client rg n loc idx admin_key w)) =
     mkSim (storage_accounts (azure w)) (cognitive_accounts (azure w))
           (<[(py "https://" ++ n ++ py ".search.windows.net", idx) :=
                {| index_name_ := idx; fields := the_fields; vector_search := the_vector_search |}]>
              (indexes (azure w)))
           (clock (azure w))
  /\ exists new,
       calls (snd (create_vector_database_and_index client rg n loc idx admin_key w)) = calls w ++ new
       /\ Forall (fun c => is_creation c = false) new.
Proof.
  intros Hacct.
  unfold returned_key, create_vector_database_and_index, try_except, bind, print_info,
    print_success, print_error, logger_info, logger_error, emit, sdk, ret, raise. cbn.
  unfold sim_accounts_get, sim_accounts_list_keys. rewrite Hacct. cbn.
  destruct (no_key admin_key) eqn:Ek; cbn.
  - rewrite Hacct. cbn. repeat split.
    rewrite <- !app_assoc. eexists. split; [reflexivity|]. repeat constructor.
  - repeat split.
    rewrite <- !app_assoc. eexists. split; [reflexivity|]. repeat constructor.
Qed.

Lemma search_step_any (client : CognitiveServicesManagementClient) (rg : option pystr)
    (n loc idx : pystr) (admin_key : option pystr) (w : World Sim) :
  exists acct,
    cognitive_accounts (azure (snd (create_vector_database_and_index client rg n loc idx admin_key w)))
      !! (rg, n) = Some acct
    /\ indexes (azure (snd (create_vector_database_and_index client rg n loc idx admin_key w)))
         !! (py "https://" ++ n ++ py ".search.windows.net", idx) =
       Some {| index_name_ := idx; fields := the_fields; vector_search := the_vector_search |}
    /\ fst (create_vector_database_and_index client rg n loc idx admin_key w) =
       Ok (JObj [ (py "search_endpoint", JStr (py "https://" ++ n ++ py ".search.windows.net"));
                  (py "search_admin_key",
                   match returned_key admin_key acct with Some k => JStr k | None => JNull end);
                  (py "index_name", JStr idx) ]).
Proof.
  unfold returned_key, create_vector_database_and_index, try_except, bind, print_info,
    print_success, print_error, logger_info, logger_error, emit, sdk, ret, raise. cbn.
  unfold sim_accounts_get, sim_accounts_list_keys.
  destruct (cognitive_accounts (azure w) !! (rg, n)) eqn:E; cbn.
  - destruct (no_key admin_key) eqn:Ek; cbn.
    + rewrite E. cbn. rewrite lookup_insert_eq. eauto.
    + rewrite lookup_insert_eq. eauto.
  - destruct (no_key admin_key) eqn:Ek; cbn.
    + rewrite lookup_insert_eq. cbn. rewrite !lookup_insert_eq. eauto.
    + rewrite !lookup_insert_eq. eauto.
Qed.

(** C6: on the reference provider, when the storage account of the
    resolved name exists the storage step returns its URL, name and first
    key, issues no creation call and leaves the provider as it was; when the
    cognitive account exists the search step returns its endpoint, key and
    index name, issues no creation call and leaves every account as it was;
    and a step called a second time, from any state, returns what the first
    call returned, creates nothing and changes nothing.  On any provider at
    all, a probe that returns keeps the step from issuing a creation call. *)
Theorem provisioning_idempotent (storage_client : StorageManagementClient)
    (cog_client : CognitiveServicesManagementClient) (rg : option pystr)
    (n loc idx : pystr) (admin_key : option pystr) (w : World Sim) :
  (forall acct,
     storage_accounts (azure w) !! (rg, n) = Some acct ->
     fst (create_storage_account storage_client rg n loc w) =
       Ok (JObj [ (py "AZURE_STORAGE_URL", JStr (py "https://" ++ n ++ py ".blob.core.windows.net"));
                  (py "AZURE_STORAGE_NAME", JStr n);
                  (py "AZURE_STORAGE_KEY", JStr (key1 acct)) ])
     /\ azure (snd (create_storage_account storage_client rg n loc w)) = azure w
     /\ exists new,
          calls (snd (create_storage_account storage_client rg n loc w)) = calls w ++ new
          /\ Forall (fun c => is_creation c = false) new)
  /\ (forall acct,
        cognitive_accounts (azure w) !! (rg, n) = Some acct ->
        fst (create_vector_database_and_index cog_client rg n loc idx admin_key w) =
          Ok (JObj [ (py "search_endpoint", JStr (py "https://" ++ n ++ py ".search.windows.net"));
                     (py "search_admin_key",
                      match returned_key admin_key acct with Some k => JStr k | None => JNull end);
                     (py "index_name", JStr idx) ])
        /\ storage_accounts (azure (snd (create_vector_database_and_index cog_client rg n loc idx admin_key w)))
           = storage_accounts (azure w)
        /\ cognitive_accounts (azure (snd (create_vector_database_and_index cog_client rg n loc idx admin_key w)))
           = cognitive_accounts (azure w)
        /\ exists new,
             calls (snd (create_vector_database_and_index cog_client rg n loc idx admin_key w)) = calls w ++ new
             /\ Forall (fun c => is_creation c = false) new)
  /\ (let w1 := snd (create_storage_account storage_client rg n loc w) in
      (exists v, fst (create_storage_account storage_client rg n loc w) = Ok v)
      /\ fst (create_storage_account storage_client rg n loc w1)
         = fst (create_storage_account storage_client rg n loc w)
      /\ azure (snd (create_storage_account storage_client rg n loc w1)) = azure w1
      /\ exists new,
           calls (snd (create_storage_account storage_client rg n loc w1)) = calls w1 ++ new
           /\ Forall (fun c => is_creation c = false) new)
  /\ (let w1 := snd (create_vector_database_and_index cog_client rg n loc idx admin_key w) in
      (exists v, fst (create_vector_database_and_index cog_client rg n loc idx admin_key w) = Ok v)
      /\ fst (create_vector_database_and_index cog_client rg n loc idx admin_key w1)
         = fst (create_vector_database_and_index cog_client rg n loc idx admin_key w)
      /\ azure (snd (create_vector_database_and_index cog_client rg n loc idx admin_key w1)) = azure w1
      /\ exists new,
           calls (snd (create_vector_database_and_index cog_client rg n loc idx admin_key w1)) = calls w1 ++ new
           /\ Forall (fun c => is_creation c = false) new)
  /\ (forall (S : Type) (HS : Azure S) (w : World S),
        (fst (storage_get_properties storage_client rg n (azure w)) = Ok tt ->
         exists new,
           calls (snd (create_storage_account storage_client rg n loc w)) = calls w ++ new
           /\ Forall (fun c => is_creation c = false) new)
        /\ (fst (accounts_get cog_client rg n (azure w)) = Ok tt ->
            exists new,
              calls (snd (create_vector_database_and_index cog_client rg n loc idx admin_key w))
                = calls w ++ new
              /\ Forall (fun c => is_creation c = false) new)).
Proof.
  split; [|split; [|split; [|split]]].
  5: { intros S HS w0. split.
       - apply storage_probe_short_circuits.
       - apply search_probe_short_circuits. }
  - intros acct Hacct.
    destruct (storage_step_existing storage_client rg n loc w acct Hacct) as (Hr & Ha & Hc).
    split; [exact Hr|]. split; [exact Ha|].
    eexists. split; [exact Hc|]. repeat constructor.
  - intros acct Hacct.
    destruct (search_step_existing cog_client rg n loc idx admin_key w acct Hacct) as (Hr & Ha & Hc).
    split; [exact Hr|]. rewrite Ha. cbn. auto.
  - cbn zeta.
    destruct (storage_step_any storage_client rg n loc w) as (acct & Hacct & Hr).
    destruct (storage_step_existing storage_client rg n loc _ acct Hacct) as (Hr2 & Ha2 & Hc2).
    split; [eauto|]. split; [by rewrite Hr, Hr2|]. split; [exact Ha2|].
    eexists. split; [exact Hc2|]. repeat constructor.
  - cbn zeta.
    destruct (search_step_any cog_client rg n loc idx admin_key w) as (acct & Hacct & Hidx & Hr).
    destruct (search_step_existing cog_client rg n loc idx admin_key _ acct Hacct) as (Hr2 & Ha2 & Hc2).
    split; [eauto|]. split; [by rewrite Hr, Hr2|]. split; [|exact Hc2].
    rewrite Ha2, (insert_id _ _ _ Hidx).
    by destruct (azure (snd (create_vector_database_and_index cog_client rg n loc idx admin_key w))).
Qed.

Lemma main_missing_configuration_witness :
  Py.dict_lookup (py "title") [ (py "title", JStr (py "Research Papers")) ]
    = Some (JStr (py "Research Papers"))
  /\ Str.strip (py "Research Papers") <> []
  /\ (∅ : gmap pystr pystr) !! py "AZURE_SUBSCRIPTION_ID" = None
  /\ fst (main (fun s => s) ∅ (request_with_title (py "Research Papers")) (boot stocked)) =
     Ok {| resp_body :=
             Text (py "Missing required environment variables: AZURE_SUBSCRIPTION_ID or AZURE_RESOURCE_GROUP");
           mimetype := None;
           status_code := 500 |}
  /\ calls (snd (main (fun s => s) ∅ (request_with_title (py "Research Papers")) (boot stocked))) = []
  /\ azure (snd (main (fun s => s) ∅ (request_with_title (py "Research Papers")) (boot stocked))) = stocked.
Proof.
  assert (Hstrip : Str.strip (py "Research Papers") <> []) by (vm_compute; discriminate).
  split; [reflexivity|]. split; [exact Hstrip|]. split; [reflexivity|].
  exact (main_missing_configuration (fun s => s) ∅ [ (py "title", JStr (py "Research Papers")) ]
           (py "Research Papers") (boot stocked) eq_refl Hstrip (or_introl eq_refl)).
Defined.

Lemma provisioning_idempotent_witness :
  storage_accounts stocked !! (Some (py "rg-0"), py "mystorageacct1234") <> None
  /\ fst (create_storage_account sample_storage_client (Some (py "rg-0"))
            (py "mystorageacct1234") (py "eastus") (boot stocked)) =
     Ok (JObj [ (py "AZURE_STORAGE_URL", JStr (py "https://mystorageacct1234.blob.core.windows.net"));
                (py "AZURE_STORAGE_NAME", JStr (py "mystorageacct1234"));
                (py "AZURE_STORAGE_KEY", JStr (py "k1")) ])
  /\ azure (snd (create_storage_account sample_storage_client (Some (py "rg-0"))
                   (py "mystorageacct1234") (py "eastus") (boot stocked))) = stocked.
Proof.
  split; [vm_compute; discriminate|].
  destruct (provisioning_idempotent sample_storage_client sample_cog_client (Some (py "rg-0"))
              (py "mystorageacct1234") (py "eastus") (py "rag-vector-index") None (boot stocked))
    as (Hstorage & _).
  destruct (Hstorage _ eq_refl) as (Hr & Ha & _).
  split; [exact Hr|exact Ha].
Defined.


(** C1, on the code: for the title "My Docs! 2024" (stem "mydocs2024") at
    time 1700001234 with the default configuration, every account the
    handler names is the configured base followed by the time modulo 10000,
    read once for each resource ("mystorageacct1234", then
    "mysearchacct1251" after the storage account took 17 seconds); none of
    the names starts with the stem. *)
Theorem main_names_from_configured_base (unicode_lower : pystr -> pystr) :
  CreateDb.sanitize (Str.lower unicode_lower (py "My Docs! 2024")) = py "mydocs2024"
  /\ omap account_of_call
       (calls (snd (main unicode_lower sample_environ (request_with_title (py "My Docs! 2024"))
                      (boot (empty_at 1700001234))))) =
     [ py "mystorageacct1234"; py "mystorageacct1234"; py "mystorageacct1234";
       py "mysearchacct1251"; py "mysearchacct1251"; py "mysearchacct1251" ]
  /\ Forall (fun n => startswith (py "mydocs2024") n = false)
       (omap account_of_call
          (calls (snd (main unicode_lower sample_environ (request_with_title (py "My Docs! 2024"))
                         (boot (empty_at 1700001234)))))).
Proof.
  split; [reflexivity|].
  assert (Hcalls :
    omap account_of_call
       (calls (snd (main unicode_lower sample_environ (request_with_title (py "My Docs! 2024"))
                      (boot (empty_at 1700001234))))) =
     [ py "mystorageacct1234"; py "mystorageacct1234"; py "mystorageacct1234";
       py "mysearchacct1251"; py "mysearchacct1251"; py "mysearchacct1251" ])
    by (vm_compute; reflexivity).
  split; [exact Hcalls|].
  rewrite Hcalls. repeat constructor.
Qed.

End Reference.

End CreateDbFacts.

(** * Further properties of the provisioner *)

Module ProvisionerFacts.
Import CreateDb CreateDbFacts.

Section Validation.

Context {S : Type} `{Azure S}.
Variable unicode_lower : pystr -> pystr.
Variable environ : gmap pystr pystr.

(** A handler that always answers makes the whole [try] answer. *)
Lemma try_except_answers {W A} (m : M W A) (h : exn -> M W A) (w : W) :
  (forall e w1, exists a, fst (h e w1) = Ok a) -> exists a, fst (try_except m h w) = Ok a.
Proof.
  intros Hh. unfold try_except. destruct (m w) as [[a|e] w1]; [by exists a|apply Hh].
Qed.

(** X1: a body that is not valid JSON, and a JSON object whose title is
    missing, not a string, empty or all whitespace, are both answered with
    status 400 before anything else happens: in either case no call is
    recorded, and the provider's state and the module global
    [AZURE_STORAGE_ACCOUNT_KEY] are untouched. *)
Theorem main_rejects_without_calls (w : World S) :
  (fst (main unicode_lower environ {| get_json := None |} w) =
     Ok {| resp_body := Text (py "Invalid JSON body"); mimetype := None; status_code := 400 |}
   /\ calls (snd (main unicode_lower environ {| get_json := None |} w)) = calls w
   /\ azure (snd (main unicode_lower environ {| get_json := None |} w)) = azure w
   /\ AZURE_STORAGE_ACCOUNT_KEY (snd (main unicode_lower environ {| get_json := None |} w))
      = AZURE_STORAGE_ACCOUNT_KEY w)
  /\ (forall items,
        title_ok (default JNull (Py.dict_lookup (py "title") items)) = false ->
        fst (main unicode_lower environ {| get_json := Some (JObj items) |} w) =
          Ok {| resp_body := Text (py "Missing or invalid 'title' in request body");
                mimetype := None;
                status_code := 400 |}
        /\ calls (snd (main unicode_lower environ {| get_json := Some (JObj items) |} w)) = calls w
        /\ azure (snd (main unicode_lower environ {| get_json := Some (JObj items) |} w)) = azure w
        /\ AZURE_STORAGE_ACCOUNT_KEY (snd (main unicode_lower environ {| get_json := Some (JObj items) |} w))
           = AZURE_STORAGE_ACCOUNT_KEY w).
Proof.
  split; [repeat split|].
  intros items Hbad.
  destruct (main_rejects_bad_title unicode_lower environ items w Hbad) as (Hr & Hc & Ha).
  split; [exact Hr|]. split; [exact Hc|]. split; [exact Ha|].
  revert Hbad. unfold main, bind, logger_info, emit, Py.get, ret. cbn.
  destruct (default JNull (Py.dict_lookup (py "title") items)) as [| b | n | f | s | xs | kvs];
    cbn; intros Hbad.
  - done.
  - by destruct b.
  - by destruct (n =? 0).
  - by destruct (PrimFloat.eqb f PrimFloat.zero).
  - destruct s as [|c s]; [done|]. cbn. rewrite Hbad. done.
  - by destruct xs.
  - by destruct kvs.
Qed.

(** X2: once the body is a JSON object the handler always answers: whatever
    the provider raises is caught, and the status is 200, 400 or 500. *)
Theorem main_object_body_always_answers (items : list (pystr * json)) (w : World S) :
  exists r,
    fst (main unicode_lower environ {| get_json := Some (JObj items) |} w) = Ok r
    /\ (status_code r = 200 \/ status_code r = 400 \/ status_code r = 500).
Proof.
  assert (Hr : exists r, fst (main unicode_lower environ {| get_json := Some (JObj items) |} w) = Ok r).
  { unfold main, bind, logger_info, emit, Py.get, ret. cbn.
    destruct (default JNull (Py.dict_lookup (py "title") items)) as [| b | n | f | s | xs | kvs]; cbn.
    - eauto.
    - destruct b; cbn; eauto.
    - destruct (n =? 0); cbn; eauto.
    - destruct (PrimFloat.eqb f PrimFloat.zero); cbn; eauto.
    - destruct s as [|c s]; cbn; [eauto|].
      destruct (negb (Str.truthy (Str.strip (c :: s)))); cbn; [eauto|].
      destruct (unset (environ !! py "AZURE_SUBSCRIPTION_ID")
                || unset (environ !! py "AZURE_RESOURCE_GROUP")); [cbn; eauto|].
      apply try_except_answers. intros e w1. cbn. eauto.
    - destruct xs; cbn; eauto.
    - destruct kvs; cbn; eauto. }
  destruct Hr as [r Hr]. exists r. split; [exact Hr|].
  destruct (main_response_cases unicode_lower environ _ w r Hr)
    as [-> | [-> | [-> | [(e & ->) | (payload & ->)]]]]; cbn; auto.
Qed.

(** X3: of an accepted request only the fact that it was accepted matters:
    two JSON objects with titles the validator lets through, whatever their
    titles, descriptions, tags and other keys, give the same response, the
    same calls and the same final state. *)
Theorem accepted_body_plays_no_part (items1 items2 : list (pystr * json)) (t1 t2 : pystr)
    (w : World S) :
  Py.dict_lookup (py "title") items1 = Some (JStr t1) -> Str.strip t1 <> [] ->
  Py.dict_lookup (py "title") items2 = Some (JStr t2) -> Str.strip t2 <> [] ->
  main unicode_lower environ {| get_json := Some (JObj items1) |} w =
  main unicode_lower environ {| get_json := Some (JObj items2) |} w.
Proof. apply main_title_irrelevant. Qed.

End Validation.

(** X18: a name that is already a stem is kept: text made of [a-z0-9]
    only, of at most 20 characters, is its own stem. *)
Theorem sanitize_keeps_a_stem (unicode_lower : pystr -> pystr) (s : pystr) :
  Forall (fun c => Str.is_lower_alnum c = true) s ->
  (length s <= 20)%nat ->
  sanitize (Str.lower unicode_lower s) = s.
Proof.
  intros Hs Hlen.
  assert (Hascii : forallb Str.is_ascii s = true).
  { apply forallb_forall. intros c Hc%list_elem_of_In.
    rewrite Forall_forall in Hs. specialize (Hs c Hc).
    unfold Str.is_lower_alnum in Hs. unfold Str.is_ascii.
    rewrite orb_true_iff, !andb_true_iff, !N.leb_le in Hs. apply N.ltb_lt. lia. }
  assert (Hlower : Str.ascii_lower <$> s = s).
  { clear Hlen Hascii. induction Hs as [|c s Hc _ IH]; [done|].
    cbn. rewrite IH. f_equal.
    unfold Str.ascii_lower, Str.is_ascii_upper. unfold Str.is_lower_alnum in Hc.
    rewrite orb_true_iff, !andb_true_iff, !N.leb_le in Hc.
    destruct ((65 <=? c)%N && (c <=? 90)%N) eqn:E; [|done].
    rewrite andb_true_iff, !N.leb_le in E. lia. }
  unfold sanitize, Str.lower. rewrite Hascii, Hlower.
  unfold Str.re_sub_non_alnum, Str.slice_to.
  rewrite forallb_filter_id.
  - by apply firstn_all2.
  - apply forallb_forall. intros c Hc%list_elem_of_In.
    rewrite Forall_forall in Hs. auto.
Qed.

End ProvisionerFacts.

(** * Further properties of a provisioning run *)

Module RunFacts.
Import CreateDb CreateDbFacts Traces.

Arguments Py.getitem : simpl never.

Lemma getitem_storage_key {W} (url name key : json) (w : W) :
  Py.getitem (JObj [ (py "AZURE_STORAGE_URL", url); (py "AZURE_STORAGE_NAME", name);
                     (py "AZURE_STORAGE_KEY", key) ]) (py "AZURE_STORAGE_KEY") w = (Ok key, w).
Proof. reflexivity. Qed.

Lemma getitem_storage_url {W} (url name key : json) (w : W) :
  Py.getitem (JObj [ (py "AZURE_STORAGE_URL", url); (py "AZURE_STORAGE_NAME", name);
                     (py "AZURE_STORAGE_KEY", key) ]) (py "AZURE_STORAGE_URL") w = (Ok url, w).
Proof. reflexivity. Qed.

(** The validation of [main], case by case. *)
Ltac split_validation :=
  unfold main, bind, logger_info, emit, Py.get, ret; cbn;
  repeat match goal with
    | |- context [get_json ?req] =>
        destruct (get_json req) as [[| ? | ? | ? | ? | ? | ?]|]; cbn
    | |- context [default JNull (Py.dict_lookup (py "title") ?items)] =>
        destruct (default JNull (Py.dict_lookup (py "title") items))
          as [| [] | ? | ? | [|? ?] | [|? ?] | [|? ?]]; cbn
    | |- context [(?n =? 0)] => destruct (n =? 0); cbn
    | |- context [PrimFloat.eqb ?f PrimFloat.zero] => destruct (PrimFloat.eqb f PrimFloat.zero); cbn
    | |- context [Str.strip ?s] => destruct (Str.strip s) as [|? ?]; cbn
    | |- context [unset ?a || unset ?b] => destruct (unset a || unset b); cbn
    end.

(** The next external step of a run of [main], in program order. *)
Ltac main_step :=
  match goal with
  | |- context [new_credential ?s] => provider_call (new_credential s)
  | |- context [new_storage_client ?a ?b ?s] => provider_call (new_storage_client a b s)
  | |- context [new_cog_client ?a ?b ?s] => provider_call (new_cog_client a b s)
  | |- context [time_time ?s] => destruct (time_time s) as [? ?] eqn:?; cbn
  | |- context [match ?keys with [] => _ | _ :: _ => _ end] => is_var keys; destruct keys; cbn
  | |- context [Py.getitem _ _ _] =>
      progress (rewrite ?getitem_storage_key, ?getitem_storage_url); cbn
  | _ => sdk_step
  end.

(** Every path of [main]. *)
Ltac explore_main :=
  split_validation;
  unfold create_storage_account, create_vector_database_and_index, try_except, bind,
    print_info, print_success, print_error, logger_info, logger_error, emit, sdk, now, ret,
    raise, first_key_value, set_AZURE_STORAGE_ACCOUNT_KEY; cbn;
  repeat main_step.

(** An exception of the context is one the provider raised. *)
Ltac provider_raised :=
  unfold raised_by_provider;
  repeat match goal with
    | |- _ \/ _ =>
        (left; solve [ repeat eexists;
                       match goal with E : _ = (Raise _, _) |- _ => exact (f_equal fst E) end ])
        || right
    end;
  solve [ repeat eexists;
          match goal with E : _ = (Raise _, _) |- _ => exact (f_equal fst E) end ].

(** The account of the context is there: probed, or created. *)
Ltac account_ready :=
  first [ left; eassumption
        | right; unfold storage_parameters, cognitive_parameters;
          eexists _, _, _, _; split; [eassumption|]; split; eassumption ].

Section Run.

Context {S : Type} `{Azure S}.
Variable unicode_lower : pystr -> pystr.
Variable environ : gmap pystr pystr.

Lemma search_after_keys_spec (seen : bool) (pre post : list Call) (c : Call) :
  search_after_keys seen (pre ++ c :: post) = true ->
  is_search_side c = true ->
  seen = true \/ Exists (fun k => is_storage_list_keys k = true) pre.
Proof.
  revert seen. induction pre as [|d pre IH]; intros seen; cbn.
  - intros Hs Hc. destruct (is_storage_list_keys c) eqn:Ek.
    + by destruct c.
    + rewrite Hc in Hs. apply andb_prop in Hs as [-> _]. by left.
  - intros Hs Hc. destruct (is_storage_list_keys d) eqn:Ed.
    + right. by left.
    + destruct (is_search_side d).
      * apply andb_prop in Hs as [_ Hs]. destruct (IH _ Hs Hc); auto.
      * destruct (IH _ Hs Hc); auto.
Qed.

Lemma main_search_after_keys (req : HttpRequest) (w : World S) :
  exists new,
    calls (snd (main unicode_lower environ req w)) = calls w ++ new
    /\ search_after_keys false new = true.
Proof.
  explore_main.
  all: rewrite <- ?app_assoc; eexists; (split; [symmetry; apply app_nil_r || reflexivity|]); reflexivity.
Qed.

(** Every response of the handler, with where it comes from: the three
    refusals, the text of the exception that ended the [try] block (one a
    call to the provider raised, or the [IndexError] of an empty key
    listing), or the payload built from what the provider returned. *)
Lemma main_outcomes (req : HttpRequest) (w : World S) (r : HttpResponse) :
  fst (main unicode_lower environ req w) = Ok r ->
  r = text_response (py "Invalid JSON body") 400
  \/ r = text_response (py "Missing or invalid 'title' in request body") 400
  \/ r = text_response
           (py "Missing required environment variables: AZURE_SUBSCRIPTION_ID or AZURE_RESOURCE_GROUP")
           500
  \/ (exists e,
        r = text_response (py "Error: " ++ exc_str e) 500
        /\ (raised_by_provider e \/ e = Py.IndexError))
  \/ (exists storage_key,
        successful_run environ w r storage_key
          (azure (snd (main unicode_lower environ req w)))
        /\ AZURE_STORAGE_ACCOUNT_KEY (snd (main unicode_lower environ req w)) = JStr storage_key).
Proof.
  explore_main.
  all: first [ intros <-%Ok_inj | intros Hr; discriminate Hr ].
  all: repeat match goal with u : unit |- _ => destruct u end.
  all: first
    [ left; reflexivity
    | right; left; reflexivity
    | right; right; left; reflexivity
    | right; right; right; left; exists Py.IndexError; split; [reflexivity|right; reflexivity]
    | right; right; right; left; eexists; split; [reflexivity|left; provider_raised]
    | right; right; right; right;
      eexists; split; [|reflexivity];
      unfold successful_run; cbv zeta;
      eexists _, _, _, _, _, _, _, _, _, _, _, _, _, _, _, _, _, _;
      split; [eassumption|]; split; [eassumption|]; split; [eassumption|];
      split; [eassumption|]; split; [account_ready|]; split; [eassumption|];
      split; [eassumption|]; split; [account_ready|]; split; [eassumption|];
      split; [eassumption|]; split; [eassumption|]; reflexivity ].
Qed.

(** The response of a successful run: status 200, and the storage key
    under "storage" in the payload. *)
Lemma successful_run_payload (w : World S) (r : HttpResponse) (storage_key : pystr) (final : S) :
  successful_run environ w r storage_key final ->
  status_code r = 200
  /\ exists payload storage,
       resp_body r = JsonDumps payload None
       /\ Py.field (py "storage") payload = Some storage
       /\ Py.field (py "AZURE_STORAGE_KEY") storage = Some (JStr storage_key).
Proof.
  clear unicode_lower.
  unfold successful_run. cbv zeta.
  intros (credential & storage_client & cog_client & s1 & s2 & s3 & t & s4 & s5 & keys & s6 & t'
          & s7 & s8 & primary_key & s9 & search_client & s10
          & _ & _ & _ & _ & _ & _ & _ & _ & _ & _ & _ & ->).
  split; [reflexivity|]. eexists _, _. split; [reflexivity|]. split; reflexivity.
Qed.

(** A response with status 200 comes from a successful run. *)
Lemma main_200_inv (req : HttpRequest) (w : World S) (r : HttpResponse) :
  fst (main unicode_lower environ req w) = Ok r ->
  status_code r = 200 ->
  exists storage_key,
    successful_run environ w r storage_key (azure (snd (main unicode_lower environ req w)))
    /\ AZURE_STORAGE_ACCOUNT_KEY (snd (main unicode_lower environ req w)) = JStr storage_key.
Proof.
  intros Hr Hstatus.
  destruct (main_outcomes req w r Hr) as [-> | [-> | [-> | [(e & -> & _) | Hrun]]]];
    [discriminate Hstatus..|exact Hrun].
Qed.

(** X4: a response with status 200 is the record of a run in which every
    call returned.  From the state the request found the provider in, the
    credential and the two management clients were built, the clock was
    read ([time_time], giving [t]), the storage account named by the
    configured base (default "mystorageacct") followed by [t mod 10000] was
    probed or created, its keys were listed and the first is
    [storage_key], the clock was read again (giving [t']), the cognitive
    account named by the search base (default "mysearchacct") followed by
    [t' mod 10000] was probed or created, its primary key was listed, the
    index client was built on the account's endpoint with that key and the
    index of the configured name (default "rag-vector-index") was created
    or updated, each call from the state the one before it left.  The
    payload is the pair of the two configurations built from exactly these
    values and nothing else, the provider is left in the state the index
    request left, and the module global [AZURE_STORAGE_ACCOUNT_KEY] holds
    [storage_key]. *)
Theorem main_success_payload (req : HttpRequest) (w : World S) (r : HttpResponse) :
  fst (main unicode_lower environ req w) = Ok r ->
  status_code r = 200 ->
  exists storage_key,
    (let subscription_id := environ !! py "AZURE_SUBSCRIPTION_ID" in
     let resource_group := environ !! py "AZURE_RESOURCE_GROUP" in
     let location := default (py "eastus") (environ !! py "AZURE_LOCATION") in
     let storage_account_base :=
       default (py "mystorageacct") (environ !! py "STORAGE_ACCOUNT_BASE") in
     let search_account_base :=
       default (py "mysearchacct") (environ !! py "SEARCH_ACCOUNT_BASE") in
     let index_name := default (py "rag-vector-index") (environ !! py "SEARCH_INDEX_NAME") in
     exists credential storage_client cog_client s1 s2 s3 (t : Z) s4 s5 keys s6 (t' : Z) s7 s8
            primary_key s9 search_client s10,
       let storage_account_name := storage_account_base ++ Str.of_int (t mod 10000) in
       let search_account_name := search_account_base ++ Str.of_int (t' mod 10000) in
       let endpoint := py "https://" ++ search_account_name ++ py ".search.windows.net" in
       new_credential (azure w) = (Ok credential, s1)
       /\ new_storage_client credential subscription_id s1 = (Ok storage_client, s2)
       /\ new_cog_client credential subscription_id s2 = (Ok cog_client, s3)
       /\ time_time s3 = (t, s4)
       /\ storage_account_ready storage_client resource_group storage_account_name location s4 s5
       /\ storage_list_keys storage_client resource_group storage_account_name s5
          = (Ok (storage_key :: keys), s6)
       /\ time_time s6 = (t', s7)
       /\ search_account_ready cog_client resource_group search_account_name location s7 s8
       /\ accounts_list_keys cog_client resource_group search_account_name s8
          = (Ok primary_key, s9)
       /\ new_search_index_client endpoint primary_key s9 = (Ok search_client, s10)
       /\ create_or_update_index search_client
            {| index_name_ := index_name; fields := the_fields;
               vector_search := the_vector_search |}
            s10 = (Ok tt, azure (snd (main unicode_lower environ req w)))
       /\ r = {| resp_body :=
                   JsonDumps
                     (JObj [ (py "storage",
                              JObj [ (py "AZURE_STORAGE_URL",
                                      JStr (py "https://" ++ storage_account_name
                                            ++ py ".blob.core.windows.net"));
                                     (py "AZURE_STORAGE_NAME", JStr storage_account_name);
                                     (py "AZURE_STORAGE_KEY", JStr storage_key) ]);
                             (py "vector_search",
                              JObj [ (py "search_endpoint", JStr endpoint);
                                     (py "search_admin_key",
                                      match primary_key with Some k => JStr k | None => JNull end);
                                     (py "index_name", JStr index_name) ]) ])
                     None;
                 mimetype := Some (py "application/json");
                 status_code := 200 |})
    /\ AZURE_STORAGE_ACCOUNT_KEY (snd (main unicode_lower environ req w)) = JStr storage_key.
Proof. exact (main_200_inv req w r). Qed.

(** Every path of a provisioning step. *)
Ltac explore_step :=
  unfold create_storage_account, create_vector_database_and_index, try_except, bind,
    print_info, print_success, print_error, logger_info, logger_error, emit, sdk, ret,
    raise, first_key_value; cbn;
  repeat match goal with
    | |- context [no_key ?k] => destruct (no_key k) eqn:?; cbn
    | |- context [match ?keys with [] => _ | _ :: _ => _ end] => is_var keys; destruct keys; cbn
    | _ => sdk_step
    end.

(** X6: whatever the existence probe raises is taken for "not found": the
    step then asks for the creation of the account of the same name with
    fixed parameters (storage: Standard_LRS, StorageV2, HTTPS only, in the
    given location; search: S1, kind Search), once; after a probe that
    returns no creation is asked for. *)
Theorem creation_follows_any_probe_failure (storage_client : StorageManagementClient)
    (cog_client : CognitiveServicesManagementClient) (rg : option pystr)
    (n loc idx : pystr) (admin_key : option pystr) (w : World S) :
  (exists new,
     calls (snd (create_storage_account storage_client rg n loc w)) = calls w ++ new
     /\ match fst (storage_get_properties storage_client rg n (azure w)) with
        | Ok _ => Forall (fun c => is_creation c = false) new
        | Raise _ =>
            exists rest,
              new = [ StorageGetProperties storage_client rg n;
                      StorageBeginCreate storage_client rg n (storage_parameters loc) ] ++ rest
              /\ Forall (fun c => is_creation c = false) rest
        end)
  /\ (exists new,
        calls (snd (create_vector_database_and_index cog_client rg n loc idx admin_key w))
          = calls w ++ new
        /\ match fst (accounts_get cog_client rg n (azure w)) with
           | Ok _ => Forall (fun c => is_creation c = false) new
           | Raise _ =>
               exists rest,
                 new = [ AccountsGet cog_client rg n;
                         AccountsBeginCreate cog_client rg n (cognitive_parameters loc) ] ++ rest
                 /\ Forall (fun c => is_creation c = false) rest
           end).
Proof.
  split.
  - explore_step.
    all: rewrite <- ?app_assoc; eexists; (split; [reflexivity|]).
    all: first [ solve [repeat constructor]
               | eexists; split; [reflexivity|]; repeat constructor ].
  - explore_step.
    all: rewrite <- ?app_assoc; eexists; (split; [reflexivity|]).
    all: first [ solve [repeat constructor]
               | eexists; split; [reflexivity|]; repeat constructor ].
Qed.

(** X7: a step that fails says so and passes the failure on unchanged: when
    it raises [e], the last record of the log is the error "Failed to create
    ..." with the text of [e], and [e] is what the caller sees. *)
Theorem step_failure_is_logged (storage_client : StorageManagementClient)
    (cog_client : CognitiveServicesManagementClient) (rg : option pystr)
    (n loc idx : pystr) (admin_key : option pystr) (w : World S) (e : exn) :
  (fst (create_storage_account storage_client rg n loc w) = Raise e ->
   exists before,
     log_records (snd (create_storage_account storage_client rg n loc w)) =
     before ++ [ {| levelname := ERROR;
                    message := py "ERROR: " ++ py "Failed to create storage account: " ++ exc_str e;
                    exc_info := false |} ])
  /\ (fst (create_vector_database_and_index cog_client rg n loc idx admin_key w) = Raise e ->
      exists before,
        log_records (snd (create_vector_database_and_index cog_client rg n loc idx admin_key w)) =
        before ++ [ {| levelname := ERROR;
                       message := py "ERROR: " ++ py "Failed to create vector database and index: "
                                  ++ exc_str e;
                       exc_info := false |} ]).
Proof.
  split.
  - explore_step.
    all: intros [= <-] || discriminate.
    all: rewrite ?app_assoc; eexists; reflexivity.
  - explore_step.
    all: intros [= <-] || discriminate.
    all: rewrite ?app_assoc; eexists; reflexivity.
Qed.

(** X8: an account whose key listing comes back empty makes the storage
    step fail with [IndexError] ("list index out of range"), after the probe
    and the listing and with no creation; no configuration is returned. *)
Theorem empty_key_list_raises (storage_client : StorageManagementClient) (rg : option pystr)
    (n loc : pystr) (w : World S) (s1 s2 : S) :
  storage_get_properties storage_client rg n (azure w) = (Ok tt, s1) ->
  storage_list_keys storage_client rg n s1 = (Ok [], s2) ->
  fst (create_storage_account storage_client rg n loc w) =
    Raise (Exn (py "IndexError") (py "list index out of range"))
  /\ calls (snd (create_storage_account storage_client rg n loc w)) =
     calls w ++ [ StorageGetProperties storage_client rg n; StorageListKeys storage_client rg n ]
  /\ azure (snd (create_storage_account storage_client rg n loc w)) = s2.
Proof.
  intros Hprobe Hkeys.
  unfold create_storage_account, try_except, bind, print_info, print_success, print_error,
    logger_info, logger_error, emit, sdk, ret, raise, first_key_value. cbn.
  rewrite Hprobe. cbn. rewrite Hkeys. cbn.
  rewrite <- app_assoc. done.
Qed.

(** X9: a non-empty [admin_key] passed to the search step is used as it is:
    the keys of the account are never listed, the index client is built with
    that key, and the configuration a returning step hands back carries
    it. *)
Theorem passed_admin_key_is_used (cog_client : CognitiveServicesManagementClient)
    (rg : option pystr) (n loc idx : pystr) (k : pystr) (w : World S) :
  Str.truthy k = true ->
  exists new,
    calls (snd (create_vector_database_and_index cog_client rg n loc idx (Some k) w)) = calls w ++ new
    /\ Forall (fun c => is_accounts_list_keys c = false) new
    /\ (forall endpoint credential, In (NewSearchIndexClient endpoint credential) new ->
        credential = Some k)
    /\ (forall v,
          fst (create_vector_database_and_index cog_client rg n loc idx (Some k) w) = Ok v ->
          Py.field (py "search_admin_key") v = Some (JStr k)).
Proof.
  clear unicode_lower environ.
  intros Hk.
  unfold create_vector_database_and_index, try_except, bind, print_info, print_success,
    print_error, logger_info, logger_error, emit, sdk, ret, raise. cbn.
  rewrite Hk. cbn.
  repeat sdk_step.
  all: rewrite <- ?app_assoc; eexists; (split; [reflexivity|]).
  all: split; [repeat constructor|].
  all: split; [cbn; intros endpoint credential Hin; intuition congruence|].
  all: intros v [= <-] || (intros v; discriminate).
  all: reflexivity.
Qed.

(** The storage step talks to the storage side only. *)
Lemma storage_step_calls (storage_client : StorageManagementClient) (rg : option pystr)
    (n loc : pystr) (w : World S) :
  exists new,
    calls (snd (create_storage_account storage_client rg n loc w)) = calls w ++ new
    /\ Forall (fun c => is_search_side c = false) new.
Proof.
  clear unicode_lower environ.
  explore_step.
  all: rewrite <- ?app_assoc; eexists; (split; [reflexivity|]); repeat constructor.
Qed.

(** What the storage step answers, and the state it leaves the provider
    in, depend on the provider's state only; the module global is not its
    business. *)
Lemma storage_step_provider_only (storage_client : StorageManagementClient) (rg : option pystr)
    (n loc : pystr) (w w' : World S) :
  azure w = azure w' ->
  fst (create_storage_account storage_client rg n loc w)
  = fst (create_storage_account storage_client rg n loc w')
  /\ azure (snd (create_storage_account storage_client rg n loc w))
     = azure (snd (create_storage_account storage_client rg n loc w'))
  /\ AZURE_STORAGE_ACCOUNT_KEY (snd (create_storage_account storage_client rg n loc w))
     = AZURE_STORAGE_ACCOUNT_KEY w.
Proof.
  clear unicode_lower environ.
  destruct w as [s cs ls g], w' as [s' cs' ls' g']. cbn. intros <-.
  explore_step.
  all: repeat split.
Qed.

#[local] Arguments create_storage_account : simpl never.

(** A storage step that raises ends the run. *)
Lemma main_storage_failure (items : list (pystr * json)) (title : pystr) (w w4 : World S)
    (cred : DefaultAzureCredential) (sc : StorageManagementClient)
    (cc : CognitiveServicesManagementClient) (s1 s2 s3 : S) (t : Z) (e : exn) :
  Py.dict_lookup (py "title") items = Some (JStr title) ->
  Str.strip title <> [] ->
  unset (environ !! py "AZURE_SUBSCRIPTION_ID") || unset (environ !! py "AZURE_RESOURCE_GROUP")
    = false ->
  new_credential (azure w) = (Ok cred, s1) ->
  new_storage_client cred (environ !! py "AZURE_SUBSCRIPTION_ID") s1 = (Ok sc, s2) ->
  new_cog_client cred (environ !! py "AZURE_SUBSCRIPTION_ID") s2 = (Ok cc, s3) ->
  time_time s3 = (t, azure w4) ->
  fst (create_storage_account sc (environ !! py "AZURE_RESOURCE_GROUP")
         (default (py "mystorageacct") (environ !! py "STORAGE_ACCOUNT_BASE")
          ++ Str.of_int (t mod 10000))
         (default (py "eastus") (environ !! py "AZURE_LOCATION")) w4) = Raise e ->
  fst (main unicode_lower environ {| get_json := Some (JObj items) |} w)
    = Ok (text_response (py "Error: " ++ exc_str e) 500)
  /\ (exists new,
        calls (snd (main unicode_lower environ {| get_json := Some (JObj items) |} w))
          = calls w ++ new
        /\ Forall (fun c => is_search_side c = false) new)
  /\ azure (snd (main unicode_lower environ {| get_json := Some (JObj items) |} w))
     = azure (snd (create_storage_account sc (environ !! py "AZURE_RESOURCE_GROUP")
                     (default (py "mystorageacct") (environ !! py "STORAGE_ACCOUNT_BASE")
                      ++ Str.of_int (t mod 10000))
                     (default (py "eastus") (environ !! py "AZURE_LOCATION")) w4))
  /\ AZURE_STORAGE_ACCOUNT_KEY
       (snd (main unicode_lower environ {| get_json := Some (JObj items) |} w))
     = AZURE_STORAGE_ACCOUNT_KEY w.
Proof.
  intros Htitle Hstrip Henv Hcred Hsc Hcc Htime Hfail.
  unfold main, bind, logger_info, emit, Py.get, ret. cbn.
  rewrite Htitle. cbn.
  rewrite (strip_nonblank_truthy title Hstrip). cbn.
  destruct (Str.strip title) as [|c s] eqn:Es; [done|]. cbn.
  rewrite Henv.
  unfold try_except, sdk, now. cbn.
  rewrite Hcred. cbn. rewrite Hsc. cbn. rewrite Hcc. cbn. rewrite Htime. cbn.
  match goal with
  | |- context [create_storage_account ?a ?b ?c ?d ?w0] =>
      destruct (storage_step_provider_only a b c d w0 w4 eq_refl) as (Hfst & Hazure & Hglobal);
      destruct (storage_step_calls a b c d w0) as (new & Hcalls & Hnew);
      destruct (create_storage_account a b c d w0) as [r w5] eqn:Estep
  end.
  cbn in Hfst, Hazure, Hglobal, Hcalls.
  rewrite Hfail in Hfst. subst r. cbn.
  split; [reflexivity|].
  split.
  - exists ([NewDefaultAzureCredential;
             NewStorageManagementClient cred (environ !! py "AZURE_SUBSCRIPTION_ID");
             NewCognitiveServicesManagementClient cred (environ !! py "AZURE_SUBSCRIPTION_ID")]
            ++ new).
    split.
    + rewrite Hcalls, <- !app_assoc. reflexivity.
    + apply Forall_app. split; [repeat constructor|exact Hnew].
  - split; [exact Hazure|exact Hglobal].
Qed.

(** X5: the storage account comes first, and the run stops with it.  In
    every run of the handler a call about the cognitive account or the
    search index is made only after the keys of the storage account were
    listed.  And when the storage step of an accepted request raises [e]
    (at the state the provider is in once the credential and the two
    clients are built and the clock is read), the handler answers 500 with
    "Error: " and the text of [e], none of the calls of the run is on the
    search side, the provider is left as the storage step left it, and the
    module global is unchanged. *)
Theorem storage_before_search (req : HttpRequest) (w : World S) :
  (exists new,
     calls (snd (main unicode_lower environ req w)) = calls w ++ new
     /\ forall pre c post,
          new = pre ++ c :: post ->
          is_search_side c = true ->
          Exists (fun k => is_storage_list_keys k = true) pre)
  /\ (forall (items : list (pystr * json)) (title : pystr) (w4 : World S)
             (cred : DefaultAzureCredential) (sc : StorageManagementClient)
             (cc : CognitiveServicesManagementClient) (s1 s2 s3 : S) (t : Z) (e : exn),
        req = {| get_json := Some (JObj items) |} ->
        Py.dict_lookup (py "title") items = Some (JStr title) ->
        Str.strip title <> [] ->
        unset (environ !! py "AZURE_SUBSCRIPTION_ID")
        || unset (environ !! py "AZURE_RESOURCE_GROUP") = false ->
        new_credential (azure w) = (Ok cred, s1) ->
        new_storage_client cred (environ !! py "AZURE_SUBSCRIPTION_ID") s1 = (Ok sc, s2) ->
        new_cog_client cred (environ !! py "AZURE_SUBSCRIPTION_ID") s2 = (Ok cc, s3) ->
        time_time s3 = (t, azure w4) ->
        fst (create_storage_account sc (environ !! py "AZURE_RESOURCE_GROUP")
               (default (py "mystorageacct") (environ !! py "STORAGE_ACCOUNT_BASE")
                ++ Str.of_int (t mod 10000))
               (default (py "eastus") (environ !! py "AZURE_LOCATION")) w4) = Raise e ->
        fst (main unicode_lower environ req w)
          = Ok (text_response (py "Error: " ++ exc_str e) 500)
        /\ (exists new,
              calls (snd (main unicode_lower environ req w)) = calls w ++ new
              /\ Forall (fun c => is_search_side c = false) new)
        /\ azure (snd (main unicode_lower environ req w))
           = azure (snd (create_storage_account sc (environ !! py "AZURE_RESOURCE_GROUP")
                           (default (py "mystorageacct") (environ !! py "STORAGE_ACCOUNT_BASE")
                            ++ Str.of_int (t mod 10000))
                           (default (py "eastus") (environ !! py "AZURE_LOCATION")) w4))
        /\ AZURE_STORAGE_ACCOUNT_KEY (snd (main unicode_lower environ req w))
           = AZURE_STORAGE_ACCOUNT_KEY w).
Proof.
  split.
  - destruct (main_search_after_keys req w) as (new & Hnew & Hord).
    exists new. split; [exact Hnew|].
    intros pre c post -> Hc.
    destruct (search_after_keys_spec false pre post c Hord Hc) as [|]; [discriminate|done].
  - intros items title w4 cred sc cc s1 s2 s3 t e -> Htitle Hstrip Henv Hcred Hsc Hcc Htime Hfail.
    exact (main_storage_failure items title w w4 cred sc cc s1 s2 s3 t e
             Htitle Hstrip Henv Hcred Hsc Hcc Htime Hfail).
Qed.

End Run.

End RunFacts.

(** * What a failure shows the caller *)

Section Failures.

Import SimAzure KeylessAzure ListDb.




End Failures.


(** * Properties of the blob upload helper *)

Module BlobFacts.
Import CreateDb CreateDbFacts BlobHelper.

(** The next step of the helper, in program order. *)
Ltac blob_step :=
  match goal with
  | |- context [get_container_client ?c ?n] => destruct (get_container_client c n) eqn:?; cbn
  | |- context [get_blob_client ?c ?n] => destruct (get_blob_client c n) eqn:?; cbn
  | |- context [create_container ?c ?b] => provider_call (create_container c b)
  | |- context [upload_blob ?c ?d ?o ?b] => provider_call (upload_blob c d o b)
  | |- context [generate_blob_sas ?a ?c ?n ?p ?x ?k ?b] =>
      provider_call (generate_blob_sas a c n p x k b)
  | |- context [utcnow ?b] => destruct (utcnow b) as [? ?] eqn:?; cbn
  | |- context [plus_hours ?t ?h] => destruct (plus_hours t h) eqn:?; cbn
  end.

Ltac explore_helper :=
  unfold upload_blob_and_generate_sas, ensure_container_exists, try_except, bind, in_world,
    blob_sdk, datetime_utcnow, evaluate, get_AZURE_STORAGE_ACCOUNT_KEY, print_info,
    print_success, logger_info, emit, ret; cbn;
  repeat blob_step.

Section Helper.

Context {S B : Type} `{BlobStorage B}.


(** What a returning upload did. *)
Lemma upload_returns_inv (blob_service_client : BlobServiceClient) (container blob : pystr)
    (data : list Byte.byte) (hours : Z) (p : Process S B) (url : pystr) :
  fst (upload_blob_and_generate_sas blob_service_client container blob data hours p) = Ok url ->
  exists (container_client : ContainerClient) (blob_client : BlobClient)
         (b1 b2 b3 b4 : B) (t expiry : datetime) (sas_token : pystr),
    get_container_client blob_service_client container = Ok container_client
    /\ snd (create_container container_client (blobs p)) = b1
    /\ get_blob_client container_client blob = Ok blob_client
    /\ upload_blob blob_client data true b1 = (Ok tt, b2)
    /\ utcnow b2 = (t, b3)
    /\ plus_hours t hours = Ok expiry
    /\ generate_blob_sas (account_name blob_service_client) container blob {| read := true |}
         expiry (AZURE_STORAGE_ACCOUNT_KEY (world p)) b3 = (Ok sas_token, b4)
    /\ url = py "https://" ++ account_name blob_service_client ++ py ".blob.core.windows.net/"
             ++ container ++ py "/" ++ blob ++ py "?" ++ sas_token
    /\ blob_calls (snd (upload_blob_and_generate_sas blob_service_client container blob data hours p)) =
       blob_calls p
       ++ [ CreateContainer container_client;
            UploadBlob blob_client data true;
            GenerateBlobSas (account_name blob_service_client) container blob {| read := true |}
              expiry (AZURE_STORAGE_ACCOUNT_KEY (world p)) ]
    /\ blobs (snd (upload_blob_and_generate_sas blob_service_client container blob data hours p)) = b4.
Proof.
  explore_helper.
  all: try discriminate.
  all: intros <-%Ok_inj.
  all: repeat match goal with u : unit |- _ => destruct u end.
  all: eexists _, _, _, _, _, _, _, _, _.
  all: split; [reflexivity|].
  all: split; [match goal with E : create_container _ _ = _ |- _ => rewrite E end; reflexivity|].
  all: split; [eassumption|]; split; [eassumption|]; split; [eassumption|].
  all: split; [eassumption|]; split; [eassumption|]; split; [by rewrite <- !app_assoc|].
  all: split; [by rewrite <- !app_assoc|reflexivity].
Qed.

(** X11: an upload that returns has made exactly three data-plane calls, in
    this order: the creation attempt of the container, the upload of the
    data with [overwrite] set, which returned, and the signature, read-only,
    signed with the module global [AZURE_STORAGE_ACCOUNT_KEY] as it was at
    the call and expiring the given number of hours after the reading of
    the clock taken once the upload had returned; the URL returned is the
    blob's public address followed by "?" and the token that signature call
    returned. *)
Theorem upload_returns_signed_url (blob_service_client : BlobServiceClient) (container blob : pystr)
    (data : list Byte.byte) (hours : Z) (p : Process S B) (url : pystr) :
  fst (upload_blob_and_generate_sas blob_service_client container blob data hours p) = Ok url ->
  exists (container_client : ContainerClient) (blob_client : BlobClient)
         (b1 b2 b3 b4 : B) (t expiry : datetime) (sas_token : pystr),
    get_container_client blob_service_client container = Ok container_client
    /\ snd (create_container container_client (blobs p)) = b1
    /\ get_blob_client container_client blob = Ok blob_client
    /\ upload_blob blob_client data true b1 = (Ok tt, b2)
    /\ utcnow b2 = (t, b3)
    /\ plus_hours t hours = Ok expiry
    /\ generate_blob_sas (account_name blob_service_client) container blob {| read := true |}
         expiry (AZURE_STORAGE_ACCOUNT_KEY (world p)) b3 = (Ok sas_token, b4)
    /\ url = py "https://" ++ account_name blob_service_client ++ py ".blob.core.windows.net/"
             ++ container ++ py "/" ++ blob ++ py "?" ++ sas_token
    /\ blob_calls (snd (upload_blob_and_generate_sas blob_service_client container blob data hours p)) =
       blob_calls p
       ++ [ CreateContainer container_client;
            UploadBlob blob_client data true;
            GenerateBlobSas (account_name blob_service_client) container blob {| read := true |}
              expiry (AZURE_STORAGE_ACCOUNT_KEY (world p)) ]
    /\ blobs (snd (upload_blob_and_generate_sas blob_service_client container blob data hours p)) = b4.
Proof. apply upload_returns_inv. Qed.

(** X12: a failed upload is final: when [upload_blob] raises, on the
    clients the SDK built and after the container was created or not, the
    helper raises the same exception and no signature is ever asked for. *)
Theorem failed_upload_signs_nothing (blob_service_client : BlobServiceClient)
    (container blob : pystr) (data : list Byte.byte) (hours : Z) (p : Process S B) :
  exists new,
    blob_calls (snd (upload_blob_and_generate_sas blob_service_client container blob data hours p))
      = blob_calls p ++ new
    /\ match get_container_client blob_service_client container with
       | Ok container_client =>
           match get_blob_client container_client blob with
           | Ok blob_client =>
               match upload_blob blob_client data true
                       (snd (create_container container_client (blobs p))) with
               | (Raise e, _) =>
                   fst (upload_blob_and_generate_sas blob_service_client container blob data hours p)
                     = Raise e
                   /\ Forall (fun c => is_generate_sas c = false) new
               | (Ok _, _) => True
               end
           | Raise e =>
               fst (upload_blob_and_generate_sas blob_service_client container blob data hours p)
                 = Raise e
               /\ Forall (fun c => is_generate_sas c = false) new
           end
       | Raise e =>
           fst (upload_blob_and_generate_sas blob_service_client container blob data hours p)
             = Raise e
           /\ new = []
       end.
Proof.
  explore_helper.
  all: repeat match goal with
         | E : Ok _ = Ok _ |- _ => apply Ok_inj in E; subst
         | E : Ok _ = Raise _ |- _ => discriminate E
         | E : Raise _ = Ok _ |- _ => discriminate E
         | E : Raise _ = Raise _ |- _ => injection E as ->
         end.
  all: repeat match goal with
         | E1 : ?x = _, E2 : ?x = _ |- _ => rewrite E1 in E2; inversion E2; subst; clear E2
         end.
  all: rewrite <- ?app_assoc; eexists; (split; [symmetry; apply app_nil_r || reflexivity|]).
  all: cbn; try exact I.
  all: split; [reflexivity|repeat constructor].
Qed.

End Helper.

(** The provisioner's handler run inside the process leaves the world it
    would leave on its own. *)
Lemma world_in_world {S B A} (m : M (World S) A) (p : Process S B) :
  world (snd (in_world m p)) = snd (m (world p)) /\ fst (in_world m p) = fst (m (world p))
  /\ blobs (snd (in_world m p)) = blobs p /\ blob_calls (snd (in_world m p)) = blob_calls p.
Proof. unfold in_world. by destruct (m (world p)). Qed.

(** X13: the helper signs with what the provisioner left behind: after a
    request answered 200, an upload that returns was signed with the storage
    key of that response's payload. *)
Theorem upload_signs_with_provisioned_key {S B : Type} `{Azure S} `{BlobStorage B}
    (unicode_lower : pystr -> pystr) (environ : gmap pystr pystr) (req : HttpRequest)
    (p : Process S B) (r : HttpResponse)
    (blob_service_client : BlobServiceClient) (container blob : pystr)
    (data : list Byte.byte) (hours : Z) (url : pystr) :
  fst (in_world (main unicode_lower environ req) p) = Ok r ->
  status_code r = 200 ->
  fst (upload_blob_and_generate_sas blob_service_client container blob data hours
         (snd (in_world (main unicode_lower environ req) p))) = Ok url ->
  exists (payload storage : json) (storage_key : pystr) (expiry : datetime),
    resp_body r = JsonDumps payload None
    /\ Py.field (py "storage") payload = Some storage
    /\ Py.field (py "AZURE_STORAGE_KEY") storage = Some (JStr storage_key)
    /\ In (GenerateBlobSas (account_name blob_service_client) container blob {| read := true |}
             expiry (JStr storage_key))
          (blob_calls (snd (upload_blob_and_generate_sas blob_service_client container blob data hours
                              (snd (in_world (main unicode_lower environ req) p))))).
Proof.
  intros Hr Hstatus Hurl.
  destruct (world_in_world (main unicode_lower environ req) p) as (Hw & Hf & _ & _).
  rewrite Hf in Hr.
  destruct (RunFacts.main_200_inv unicode_lower environ req (world p) r Hr Hstatus)
    as (k & Hrun & Hkey).
  destruct (RunFacts.successful_run_payload environ (world p) r k _ Hrun)
    as (_ & payload & storage & Hbody & Hstorage & Hk).
  destruct (upload_returns_inv _ _ _ _ _ _ _ Hurl)
    as (container_client & blob_client & b1 & b2 & b3 & b4 & t & expiry & sas_token
        & _ & _ & _ & _ & _ & _ & _ & _ & Hcalls & _).
  exists payload, storage, k, expiry. split; [exact Hbody|].
  split; [exact Hstorage|]. split; [exact Hk|].
  rewrite Hcalls, Hw, Hkey. apply in_or_app. right. cbn. auto.
Qed.

End BlobFacts.

(** * Further properties of the catalog lister *)

Module ListerFacts.
Import ListDb ListDbFacts.

Lemma get_list_empty {V} (k : sqlval) : get_list (∅ : gmap sqlval (list V)) k = [].
Proof. unfold get_list. by rewrite lookup_empty. Qed.

Lemma users_dict_last (us1 us2 : list UserRow) (u : UserRow) :
  (forall u', u' ∈ us2 -> u_id u' <> u_id u) ->
  users_dict (us1 ++ u :: us2) !! u_id u = Some (u_name u).
Proof.
  intros Hlast. unfold users_dict. rewrite foldl_app. cbn.
  rewrite users_dict_lookup by done. apply lookup_insert_eq.
Qed.

(** X14: in a successful listing the entry of a database row holds, under
    "contributors", "files" and "tags", what the rows of that database id
    give, each row once and in the order the query returned them. *)
Theorem related_rows_in_query_order (mysql : MySQL) (w : list LogRecord)
    (dbs : list DatabaseRow) (us : list UserRow) (cs : list ContributorRow)
    (fs : list FileRow) (ts : list TagRow) (i : nat) (db : DatabaseRow) :
  answers mysql dbs us cs fs ts ->
  dbs !! i = Some db ->
  exists entries entry,
    fst (main mysql w) =
      Ok {| resp_body := JsonDumps (JObj [ (py "databases", JArr entries) ]) (Some 2);
            mimetype := Some (py "application/json");
            status_code := 200 |}
    /\ entries !! i = Some entry
    /\ Py.field (py "contributors") entry =
       Some (JArr (contributor_entry <$> filter (fun c => c_database_id c = id db) cs))
    /\ Py.field (py "files") entry =
       Some (JArr (file_entry <$> filter (fun f => f_database_id f = id db) fs))
    /\ Py.field (py "tags") entry =
       Some (JArr ((fun t => to_json (snd t)) <$> filter (fun t => fst t = id db) ts)).
Proof.
  intros Hans Hi.
  destruct (main_cases mysql w) as [(e & He & _) | (dbs' & us' & cs' & fs' & ts' & Hans' & Hmain)].
  { destruct (answers_no_raise _ _ _ _ _ _ _ Hans He). }
  destruct (answers_functional _ _ _ _ _ _ _ _ _ _ _ Hans Hans') as (<- & <- & <- & <- & <-).
  destruct (catalog_entry_fields (users_dict us) (group_contributors cs)
              (group_files fs) (group_tags ts) db) as (Fc & Ff & Ft & _ & _).
  eexists _, _. split; [exact Hmain|].
  split; [by rewrite list_lookup_fmap, Hi|].
  rewrite Fc, Ff, Ft. unfold group_contributors, group_files, group_tags.
  rewrite (get_list_grouped _ c_database_id contributor_entry) by done.
  rewrite (get_list_grouped _ f_database_id file_entry) by done.
  rewrite (get_list_grouped _ fst (fun t => to_json (snd t))) by (by intros m []).
  by rewrite !get_list_empty.
Qed.

(** X15: the owner's name is that of the last user row with the owner's id;
    it is copied even when it is NULL, which gives [null] and not
    "Unknown". *)
Theorem owner_name_is_last_matching_user (mysql : MySQL) (w : list LogRecord)
    (dbs : list DatabaseRow) (us1 us2 : list UserRow) (u : UserRow) (cs : list ContributorRow)
    (fs : list FileRow) (ts : list TagRow) (i : nat) (db : DatabaseRow) :
  answers mysql dbs (us1 ++ u :: us2) cs fs ts ->
  dbs !! i = Some db ->
  u_id u = owner_id db ->
  (forall u', u' ∈ us2 -> u_id u' <> owner_id db) ->
  exists entries entry,
    fst (main mysql w) =
      Ok {| resp_body := JsonDumps (JObj [ (py "databases", JArr entries) ]) (Some 2);
            mimetype := Some (py "application/json");
            status_code := 200 |}
    /\ entries !! i = Some entry
    /\ Py.field (py "owner") entry =
       Some (JObj [ (py "id", to_json (owner_id db)); (py "name", to_json (u_name u)) ])
    /\ (u_name u = SqlNull ->
        Py.field (py "owner") entry =
        Some (JObj [ (py "id", to_json (owner_id db)); (py "name", JNull) ])).
Proof.
  intros Hans Hi Hid Hlast.
  destruct (main_cases mysql w) as [(e & He & _) | (dbs' & us' & cs' & fs' & ts' & Hans' & Hmain)].
  { destruct (answers_no_raise _ _ _ _ _ _ _ Hans He). }
  destruct (answers_functional _ _ _ _ _ _ _ _ _ _ _ Hans Hans') as (<- & <- & <- & <- & <-).
  destruct (catalog_entry_fields (users_dict (us1 ++ u :: us2)) (group_contributors cs)
              (group_files fs) (group_tags ts) db) as (_ & _ & _ & Fo & _).
  rewrite <- Hid in Fo at 2. rewrite users_dict_last in Fo by (by rewrite Hid).
  eexists _, _. split; [exact Hmain|].
  split; [by rewrite list_lookup_fmap, Hi|].
  split; [exact Fo|].
  intros Hnull. rewrite Fo, Hnull. done.
Qed.

(** X16: the lister's log only grows: one INFO record for the request and,
    when the driver raised, one ERROR record with the text of the first
    exception and [exc_info] set; nothing else is logged. *)
Theorem lister_log (mysql : MySQL) (w : list LogRecord) :
  snd (main mysql w) =
  w ++ [ {| levelname := INFO; message := py "Processing list_db request..."; exc_info := false |} ]
    ++ match first_error mysql with
       | Some e => [ {| levelname := ERROR;
                         message := py "Error in main function: " ++ exc_str e;
                         exc_info := true |} ]
       | None => []
       end.
Proof.
  unfold first_error, errors, main, try_except, bind, driver, logger_info, logger_error, ret.
  destruct (get_mysql_connection mysql); cbn; [|by rewrite <- app_assoc].
  destruct (cursor_dictionary mysql); cbn; [|by rewrite <- app_assoc].
  destruct (query_databases mysql); cbn; [|by rewrite <- app_assoc].
  destruct (query_users mysql); cbn; [|by rewrite <- app_assoc].
  destruct (query_contributors mysql); cbn; [|by rewrite <- app_assoc].
  destruct (query_files mysql); cbn; [|by rewrite <- app_assoc].
  destruct (cursor_plain mysql); cbn; [|by rewrite <- app_assoc].
  destruct (query_tags mysql); cbn; [|by rewrite <- app_assoc].
  destruct (cursor_close mysql); cbn; [|by rewrite <- app_assoc].
  destruct (cursor_close_again mysql); cbn; [|by rewrite <- app_assoc].
  destruct (conn_close mysql); cbn; [|by rewrite <- app_assoc].
  reflexivity.
Qed.

Lemma first_error_None_answers (mysql : MySQL) :
  first_error mysql = None ->
  exists dbs us cs fs ts, answers mysql dbs us cs fs ts.
Proof.
  unfold first_error, errors, answers.
  destruct (get_mysql_connection mysql) as [[]|]; cbn; [|discriminate].
  destruct (cursor_dictionary mysql) as [[]|]; cbn; [|discriminate].
  destruct (query_databases mysql); cbn; [|discriminate].
  destruct (query_users mysql); cbn; [|discriminate].
  destruct (query_contributors mysql); cbn; [|discriminate].
  destruct (query_files mysql); cbn; [|discriminate].
  destruct (cursor_plain mysql) as [[]|]; cbn; [|discriminate].
  destruct (query_tags mysql); cbn; [|discriminate].
  destruct (cursor_close mysql) as [[]|]; cbn; [|discriminate].
  destruct (cursor_close_again mysql) as [[]|]; cbn; [|discriminate].
  destruct (conn_close mysql) as [[]|]; cbn; [|discriminate].
  intros _. eexists _, _, _, _, _. repeat split.
Qed.

(** X17: the lister always answers, and with 200 exactly when no call of
    the driver raised: a failure while opening a cursor or while closing
    the connection, after every query returned, still gives 500 and no
    listing. *)
Theorem lister_answers_200_iff_no_error (mysql : MySQL) (w : list LogRecord) :
  exists r,
    fst (main mysql w) = Ok r
    /\ (status_code r = 200 \/ status_code r = 500)
    /\ (status_code r = 200 <-> first_error mysql = None)
    /\ (forall e, first_error mysql = Some e ->
        r = {| resp_body := Text (py "Error: " ++ exc_str e); mimetype := None;
               status_code := 500 |}).
Proof.
  destruct (first_error mysql) as [e|] eqn:Efirst.
  - eexists. split; [exact (main_first_error mysql w e Efirst)|]. cbn.
    split; [by right|]. split; [split; discriminate|].
    by intros e' [= <-].
  - destruct (first_error_None_answers mysql Efirst) as (dbs & us & cs & fs & ts & Hans).
    destruct (main_cases mysql w) as [(e & He & _) | (dbs' & us' & cs' & fs' & ts' & _ & Hmain)].
    { destruct (answers_no_raise _ _ _ _ _ _ _ Hans He). }
    eexists. split; [exact Hmain|]. cbn.
    split; [by left|]. split; [done|]. discriminate.
Qed.

End ListerFacts.

(** * Witnesses of the further properties *)

Module MoreWitnesses.
Import KeylessAzure CreateDb SimAzure BlobHelper SimBlob ListDb Samples.

Lemma main_rejects_without_calls_witness :
  CreateDb.title_ok (default JNull (Py.dict_lookup (py "title") [ (py "title", JStr (py "   ")) ])) = false
  /\ fst (CreateDb.main (fun s => s) sample_environ (request_with_title (py "   ")) (boot stocked)) =
     Ok {| resp_body := Text (py "Missing or invalid 'title' in request body");
           mimetype := None;
           status_code := 400 |}
  /\ calls (snd (CreateDb.main (fun s => s) sample_environ (request_with_title (py "   "))
                   (boot stocked))) = [].
Proof.
  assert (Hbad : CreateDb.title_ok
                   (default JNull (Py.dict_lookup (py "title") [ (py "title", JStr (py "   ")) ]))
                 = false) by reflexivity.
  split; [exact Hbad|].
  destruct (ProvisionerFacts.main_rejects_without_calls (fun s => s) sample_environ (boot stocked))
    as [_ Hobj].
  destruct (Hobj _ Hbad) as (Hr & Hc & _).
  split; [exact Hr|exact Hc].
Defined.

Lemma accepted_body_plays_no_part_witness :
  Str.strip (py "My Docs! 2024") <> [] /\ Str.strip (py "x") <> []
  /\ CreateDb.main (fun s => s) sample_environ
       {| get_json := Some (JObj [ (py "title", JStr (py "My Docs! 2024"));
                                   (py "tags", JArr [JStr (py "a")]) ]) |}
       (boot (empty_at 1700001234)) =
     CreateDb.main (fun s => s) sample_environ (request_with_title (py "x"))
       (boot (empty_at 1700001234)).
Proof.
  assert (H1 : Str.strip (py "My Docs! 2024") <> []) by (vm_compute; discriminate).
  assert (H2 : Str.strip (py "x") <> []) by (vm_compute; discriminate).
  split; [exact H1|]. split; [exact H2|].
  exact (ProvisionerFacts.accepted_body_plays_no_part (fun s => s) sample_environ
           [ (py "title", JStr (py "My Docs! 2024")); (py "tags", JArr [JStr (py "a")]) ]
           [ (py "title", JStr (py "x")) ] (py "My Docs! 2024") (py "x")
           (boot (empty_at 1700001234)) eq_refl H1 eq_refl H2).
Defined.

Lemma sanitize_keeps_a_stem_witness :
  sanitize (Str.lower (fun s => s) (py "mydocs2024")) = py "mydocs2024".
Proof.
  apply (ProvisionerFacts.sanitize_keeps_a_stem (fun s => s) (py "mydocs2024")).
  - vm_compute. repeat constructor.
  - vm_compute. lia.
Defined.

Lemma main_success_payload_witness :
  exists r storage_key,
    fst (CreateDb.main (fun s => s) sample_environ (request_with_title (py "Research Papers"))
           (boot (empty_at 1700001234))) = Ok r
    /\ status_code r = 200
    /\ AZURE_STORAGE_ACCOUNT_KEY
         (snd (CreateDb.main (fun s => s) sample_environ (request_with_title (py "Research Papers"))
                 (boot (empty_at 1700001234)))) = JStr storage_key.
Proof.
  assert (Hrun : exists r,
            fst (CreateDb.main (fun s => s) sample_environ
                   (request_with_title (py "Research Papers")) (boot (empty_at 1700001234))) = Ok r
            /\ status_code r = 200)
    by (eexists; split; vm_compute; reflexivity).
  destruct Hrun as (r & Hr & Hstatus).
  destruct (RunFacts.main_success_payload (fun s => s) sample_environ
              (request_with_title (py "Research Papers")) (boot (empty_at 1700001234)) r
              Hr Hstatus) as (k & _ & Hkey).
  exists r, k. split; [exact Hr|]. split; [exact Hstatus|exact Hkey].
Defined.

Lemma storage_before_search_witness :
  fst (create_storage_account sample_storage_client (Some (py "rg-0")) (py "mystorageacct1234")
         (py "eastus") KeylessAzure.boot) = Raise Py.IndexError
  /\ fst (CreateDb.main (fun s => s) sample_environ (request_with_title (py "Research Papers"))
            KeylessAzure.boot)
     = Ok (CreateDb.text_response (py "Error: " ++ py "list index out of range") 500)
  /\ exists new,
       calls (snd (CreateDb.main (fun s => s) sample_environ
                     (request_with_title (py "Research Papers")) KeylessAzure.boot)) = [] ++ new
       /\ Forall (fun c => Traces.is_search_side c = false) new.
Proof.
  split; [reflexivity|].
  destruct (RunFacts.storage_before_search (fun s => s) sample_environ
              (request_with_title (py "Research Papers")) KeylessAzure.boot) as [_ Hstops].
  destruct (Hstops [ (py "title", JStr (py "Research Papers")) ] (py "Research Papers")
              KeylessAzure.boot Build_DefaultAzureCredential sample_storage_client
              sample_cog_client tt tt tt 1700001234 Py.IndexError)
    as (Hr & Hnew & _);
    [reflexivity|reflexivity|vm_compute; discriminate|reflexivity|reflexivity|reflexivity
    |reflexivity|reflexivity|reflexivity|].
  split; [exact Hr|exact Hnew].
Defined.

Lemma step_failure_is_logged_witness :
  fst (create_storage_account sample_storage_client (Some (py "rg-0")) (py "acct1") (py "eastus")
         KeylessAzure.boot) = Raise Py.IndexError
  /\ exists before,
       log_records (snd (create_storage_account sample_storage_client (Some (py "rg-0"))
                           (py "acct1") (py "eastus") KeylessAzure.boot)) =
       before ++ [ {| levelname := ERROR;
                      message := py "ERROR: " ++ py "Failed to create storage account: "
                                 ++ py "list index out of range";
                      exc_info := false |} ].
Proof.
  split; [reflexivity|].
  destruct (RunFacts.step_failure_is_logged sample_storage_client sample_cog_client
              (Some (py "rg-0")) (py "acct1") (py "eastus") (py "idx") None KeylessAzure.boot
              Py.IndexError) as [Hstorage _].
  exact (Hstorage eq_refl).
Defined.

Lemma empty_key_list_raises_witness :
  fst (create_storage_account sample_storage_client (Some (py "rg-0")) (py "acct1") (py "eastus")
         KeylessAzure.boot) = Raise (Exn (py "IndexError") (py "list index out of range"))
  /\ calls (snd (create_storage_account sample_storage_client (Some (py "rg-0")) (py "acct1")
                   (py "eastus") KeylessAzure.boot)) =
     [ StorageGetProperties sample_storage_client (Some (py "rg-0")) (py "acct1");
       StorageListKeys sample_storage_client (Some (py "rg-0")) (py "acct1") ].
Proof.
  destruct (RunFacts.empty_key_list_raises sample_storage_client (Some (py "rg-0")) (py "acct1")
              (py "eastus") KeylessAzure.boot tt tt) as (Hr & Hc & _);
    [reflexivity|reflexivity|].
  split; [exact Hr|exact Hc].
Defined.

Lemma passed_admin_key_is_used_witness :
  Str.truthy (py "given") = true
  /\ exists v,
       fst (create_vector_database_and_index sample_cog_client (Some (py "rg-0"))
              (py "mysearchacct1251") (py "eastus") (py "rag-vector-index") (Some (py "given"))
              (boot stocked)) = Ok v
       /\ Py.field (py "search_admin_key") v = Some (JStr (py "given")).
Proof.
  split; [reflexivity|].
  destruct (RunFacts.passed_admin_key_is_used sample_cog_client (Some (py "rg-0"))
              (py "mysearchacct1251") (py "eastus") (py "rag-vector-index") (py "given")
              (boot stocked) eq_refl) as (new & _ & _ & _ & Hv).
  assert (Hrun : exists v,
            fst (create_vector_database_and_index sample_cog_client (Some (py "rg-0"))
                   (py "mysearchacct1251") (py "eastus") (py "rag-vector-index")
                   (Some (py "given")) (boot stocked)) = Ok v)
    by (eexists; vm_compute; reflexivity).
  destruct Hrun as (v & Hrun).
  exists v. split; [exact Hrun|]. apply Hv. exact Hrun.
Defined.


Lemma upload_returns_signed_url_witness :
  exists url sas_token,
    fst (upload_blob_and_generate_sas acct_client (py "docs") (py "a.txt") [] 1
           (keyed_process (empty_store 0))) = Ok url
    /\ url = py "https://" ++ py "acct" ++ py ".blob.core.windows.net/" ++ py "docs" ++ py "/"
             ++ py "a.txt" ++ py "?" ++ sas_token.
Proof.
  assert (Hrun : exists url,
            fst (upload_blob_and_generate_sas acct_client (py "docs") (py "a.txt") [] 1
                   (keyed_process (empty_store 0))) = Ok url)
    by (eexists; vm_compute; reflexivity).
  destruct Hrun as (url & Hrun).
  destruct (BlobFacts.upload_returns_signed_url acct_client (py "docs") (py "a.txt") [] 1
              (keyed_process (empty_store 0)) url Hrun)
    as (container_client & blob_client & b1 & b2 & b3 & b4 & t & expiry & tok
        & _ & _ & _ & _ & _ & _ & _ & Hurl & _).
  exists url, tok. split; [exact Hrun|exact Hurl].
Defined.

Lemma upload_signs_with_provisioned_key_witness :
  exists r url storage_key expiry,
    fst (in_world (CreateDb.main (fun s => s) sample_environ
                     (request_with_title (py "Research Papers")))
           (fresh_process (empty_store 0))) = Ok r
    /\ status_code r = 200
    /\ fst (upload_blob_and_generate_sas acct_client (py "docs") (py "a.txt") [] 1
              (snd (in_world (CreateDb.main (fun s => s) sample_environ
                                (request_with_title (py "Research Papers")))
                      (fresh_process (empty_store 0))))) = Ok url
    /\ In (GenerateBlobSas (py "acct") (py "docs") (py "a.txt") {| read := true |} expiry
             (JStr storage_key))
          (blob_calls
             (snd (upload_blob_and_generate_sas acct_client (py "docs") (py "a.txt") [] 1
                     (snd (in_world (CreateDb.main (fun s => s) sample_environ
                                       (request_with_title (py "Research Papers")))
                             (fresh_process (empty_store 0))))))).
Proof.
  assert (Hmain : exists r,
            fst (in_world (CreateDb.main (fun s => s) sample_environ
                             (request_with_title (py "Research Papers")))
                   (fresh_process (empty_store 0))) = Ok r
            /\ status_code r = 200)
    by (eexists; split; vm_compute; reflexivity).
  assert (Hupload : exists url,
            fst (upload_blob_and_generate_sas acct_client (py "docs") (py "a.txt") [] 1
                   (snd (in_world (CreateDb.main (fun s => s) sample_environ
                                     (request_with_title (py "Research Papers")))
                           (fresh_process (empty_store 0))))) = Ok url)
    by (eexists; vm_compute; reflexivity).
  destruct Hmain as (r & Hr & Hstatus).
  destruct Hupload as (url & Hurl).
  destruct (BlobFacts.upload_signs_with_provisioned_key (fun s => s) sample_environ
              (request_with_title (py "Research Papers")) (fresh_process (empty_store 0)) r
              acct_client (py "docs") (py "a.txt") [] 1 url Hr Hstatus Hurl)
    as (payload & storage & k & expiry & _ & _ & _ & Hin).
  exists r, url, k, expiry.
  split; [exact Hr|]. split; [exact Hstatus|]. split; [exact Hurl|exact Hin].
Defined.

Lemma related_rows_in_query_order_witness :
  exists entry,
    fst (ListDb.main mixed_store []) =
      Ok {| resp_body := JsonDumps (JObj [ (py "databases", JArr [entry]) ]) (Some 2);
            mimetype := Some (py "application/json");
            status_code := 200 |}
    /\ Py.field (py "tags") entry = Some (JArr [ JStr (py "ml"); JStr (py "rag") ])
    /\ Py.field (py "contributors") entry =
       Some (JArr [ JObj [ (py "id", JStr (py "u-2")); (py "name", JStr (py "Bo")) ];
                    JObj [ (py "id", JStr (py "u-1")); (py "name", JStr (py "Ann")) ] ]).
Proof.
  assert (Hans : answers mixed_store [sample_row] owner_rows mixed_contributors [] mixed_tags)
    by (unfold answers; repeat split).
  destruct (ListerFacts.related_rows_in_query_order mixed_store [] _ _ _ _ _ 0%nat sample_row
              Hans eq_refl) as (entries & entry & Hmain & Hentry & Hc & _ & Ht).
  exists entry.
  assert (Hentries : entries = [entry]).
  { injection Hmain as <-. injection Hentry as <-. reflexivity. }
  subst entries.
  split; [exact Hmain|]. split; [exact Ht|exact Hc].
Defined.

Lemma owner_name_is_last_matching_user_witness :
  exists entry,
    fst (ListDb.main mixed_store []) =
      Ok {| resp_body := JsonDumps (JObj [ (py "databases", JArr [entry]) ]) (Some 2);
            mimetype := Some (py "application/json");
            status_code := 200 |}
    /\ Py.field (py "owner") entry =
       Some (JObj [ (py "id", JStr (py "u-9")); (py "name", JNull) ]).
Proof.
  assert (Hans : answers mixed_store [sample_row]
                   ([ {| u_id := SqlStr (py "u-9"); u_name := SqlStr (py "Old Name") |} ]
                    ++ {| u_id := SqlStr (py "u-9"); u_name := SqlNull |}
                       :: [ {| u_id := SqlStr (py "u-1"); u_name := SqlStr (py "Ann") |} ])
                   mixed_contributors [] mixed_tags)
    by (unfold answers; repeat split).
  destruct (ListerFacts.owner_name_is_last_matching_user mixed_store [] _ _ _ _ _ _ _ 0%nat
              sample_row Hans eq_refl eq_refl) as (entries & entry & Hmain & Hentry & _ & Hnull).
  { intros u' ->%list_elem_of_singleton. discriminate. }
  exists entry.
  assert (Hentries : entries = [entry]).
  { injection Hmain as <-. injection Hentry as <-. reflexivity. }
  subst entries.
  split; [exact Hmain|exact (Hnull eq_refl)].
Defined.

End MoreWitnesses.
